(** * weatherboss2: the users router (src/users/router.js)

    A shallow embedding of the Express handlers of the users router:
    the registration validator and workflow, the three read handlers and
    the three location/preference mutators, over an explicit model of the
    user collection, the console and the trace of store calls. *)

From Stdlib Require Import ZArith NArith String Ascii List Lia DecimalString.
From stdpp Require Import gmap strings list.
Import ListNotations.

Local Open Scope string_scope.
Local Open Scope list_scope.
Set Warnings "-register-all".

(** ** JavaScript values *)

Module Js.

(** A JavaScript string is a sequence of UTF-16 code units; [length] counts
    code units, as the [.length] property does. *)
Definition jsstring := list N.

(** An ASCII literal of the source as a JavaScript string. *)
Definition lit (s : string) : jsstring :=
  map N_of_ascii (list_ascii_of_string s).

(** Store-assigned identifiers (Mongo ObjectIds), kept abstract. *)
Definition oid := N.

(** The values a parsed JSON body, an error object or a response body is
    made of.  Numbers are only ever inspected through [typeof] and copied,
    so integers stand for them. *)
Inductive JsValue : Type :=
| JUndefined
| JNull
| JBool (b : bool)
| JNum (n : Z)
| JStr (s : jsstring)
| JObjectId (i : oid)
| JArr (xs : list JsValue)
| JObj (props : gmap string JsValue).

(** Exceptions raised by the language itself. *)
Inductive Exn : Type :=
| TypeError (what : string)
| ReferenceError (what : string).

(** [typeof v] *)
Definition typeof (v : JsValue) : string :=
  match v with
  | JUndefined => "undefined"
  | JBool _ => "boolean"
  | JNum _ => "number"
  | JStr _ => "string"
  | JNull | JObjectId _ | JArr _ | JObj _ => "object"
  end.

(** [field in obj] for a plain object *)
Definition has (obj : gmap string JsValue) (field : string) : bool :=
  bool_decide (is_Some (obj !! field)).

(** [obj[field]]: a missing property reads as [undefined] *)
Definition get (obj : gmap string JsValue) (field : string) : JsValue :=
  default JUndefined (obj !! field).

(** WhiteSpace and LineTerminator code points of ECMAScript, the characters
    [String.prototype.trim] strips. *)
Definition isWhiteSpace (c : N) : bool :=
  (  (9 <=? c) && (c <=? 13)
  || (c =? 32) || (c =? 160) || (c =? 5760)
  || (8192 <=? c) && (c <=? 8202)
  || (c =? 8232) || (c =? 8233) || (c =? 8239) || (c =? 8287)
  || (c =? 12288) || (c =? 65279))%N.

Fixpoint trimStart (s : jsstring) : jsstring :=
  match s with
  | c :: s' => if isWhiteSpace c then trimStart s' else s
  | [] => []
  end.

Definition trimEnd (s : jsstring) : jsstring := rev (trimStart (rev s)).

(** [s.trim()] *)
Definition trim (s : jsstring) : jsstring := trimEnd (trimStart s).

Arguments lit : simpl never.

(** [v.trim()] on an arbitrary value: only strings have the method. *)
Definition callTrim (v : JsValue) : Exn + jsstring :=
  match v with
  | JStr s => inr (trim s)
  | JUndefined | JNull => inl (TypeError "Cannot read property 'trim'")
  | _ => inl (TypeError "trim is not a function")
  end.

(** [v === w] on primitive values.  Objects compare by reference; no
    comparison of the router has the same object on both sides, so two
    objects are never strictly equal here. *)
Definition strictEq (v w : JsValue) : bool :=
  match v, w with
  | JUndefined, JUndefined => true
  | JNull, JNull => true
  | JBool a, JBool b => bool_decide (a = b)
  | JNum a, JNum b => bool_decide (a = b)
  | JStr a, JStr b => bool_decide (a = b)
  | _, _ => false
  end.

(** Template-literal rendering of a non-negative integer *)
Definition showN (n : N) : jsstring :=
  lit (NilZero.string_of_uint (N.to_uint n)).

(** [Array.prototype.find] with a callback that may throw: the first element
    the callback accepts, [None] for [undefined]. *)
Fixpoint find {A} (p : A -> Exn + bool) (l : list A) : Exn + option A :=
  match l with
  | [] => inr None
  | x :: l' =>
      match p x with
      | inl e => inl e
      | inr true => inr (Some x)
      | inr false => find p l'
      end
  end.

End Js.
Import Js.

(** ** HTTP responses *)

Module Http.

(** What a handler hands to [res]: the status given to [res.status]
    (200 when the handler sets none) and the body, if any. *)
Record Response : Type := mkResponse {
  status : JsValue;
  payload : option JsValue
}.

(** [res.status(code).json(v)] *)
Definition json (code : JsValue) (v : JsValue) : Response :=
  mkResponse code (Some v).

(** [res.status(code).end()] *)
Definition endWith (code : JsValue) : Response :=
  mkResponse code None.

(** [res.send(v)]: Express sends an empty body for [null]. *)
Definition send (v : JsValue) : Response :=
  match v with
  | JNull => mkResponse (JNum 200) None
  | _ => mkResponse (JNum 200) (Some v)
  end.

(** The property [k] of a response whose body is a JSON object. *)
Definition bodyProperty (k : string) (r : Response) : option JsValue :=
  match payload r with
  | Some (JObj o) => o !! k
  | _ => None
  end.

(** How the run of a handler ends for the client. *)
Inductive Outcome : Type :=
| Sent (r : Response)
| NoResponse
| Threw (e : Exn).

End Http.
Import Http.

(** Computations that may throw. *)
Definition Completion (A : Type) : Type := Exn + A.

#[global] Instance Completion_ret : MRet Completion := fun _ x => inr x.
#[global] Instance Completion_bind : MBind Completion := fun _ _ f c =>
  match c with
  | inl e => inl e
  | inr x => f x
  end.

(** ** Registration: the field validator (router.js, lines 12-91) *)

Module Validator.

(** The body every validation failure is answered with. *)
Definition validationError (message : jsstring) (location : string) : Response :=
  json (JNum 422)
    (JObj (<["code" := JNum 422]>
          (<["reason" := JStr (lit "ValidationError")]>
          (<["message" := JStr message]>
          (<["location" := JStr (lit location)]> ∅))))).

Definition requiredFields : list string := ["username"; "password"].
Definition stringFields : list string := ["username"; "password"].
Definition explicityTrimmedFields : list string := ["username"; "password"].

(** An entry of [sizedFields]: each bound is a property that may be absent. *)
Record Bounds : Type := mkBounds { min : option N; max : option N }.

(** [sizedFields], in insertion order (the order of [Object.keys]). *)
Definition sizedFields : list (string * Bounds) :=
  [ ("username", mkBounds (Some 1%N) None);
    ("password", mkBounds (Some 4%N) (Some 72%N)) ].

Definition keys (o : list (string * Bounds)) : list string := map fst o.

(** [sizedFields[field]]; only asked for keys of [sizedFields]. *)
Definition sized (field : string) : Bounds :=
  match List.find (fun kv => String.eqb (fst kv) field) sizedFields with
  | Some kv => snd kv
  | None => mkBounds None None
  end.

(** [req.body[field].trim().length] *)
Definition trimmedLength (body : gmap string JsValue) (field : string)
  : Completion N :=
  t ← callTrim (get body field); mret (N.of_nat (length t)).

Definition isMissing (body : gmap string JsValue) (field : string)
  : Completion bool :=
  mret (negb (has body field)).

Definition isNonString (body : gmap string JsValue) (field : string)
  : Completion bool :=
  mret (has body field && negb (String.eqb (typeof (get body field)) "string")).

Definition isNonTrimmed (body : gmap string JsValue) (field : string)
  : Completion bool :=
  t ← callTrim (get body field);
  mret (negb (strictEq (JStr t) (get body field))).

Definition isTooSmall (body : gmap string JsValue) (field : string)
  : Completion bool :=
  match min (sized field) with
  | None => mret false
  | Some m => n ← trimmedLength body field; mret (n <? m)%N
  end.

Definition isTooLarge (body : gmap string JsValue) (field : string)
  : Completion bool :=
  match max (sized field) with
  | None => mret false
  | Some m => n ← trimmedLength body field; mret (m <? n)%N
  end.

Definition atLeast (m : N) : jsstring :=
  lit "Must be at least " ++ showN m ++ lit " characters long".

Definition atMost (m : N) : jsstring :=
  lit "Must be at most " ++ showN m ++ lit " characters long".

(** [sizedFields[field].min] inside a template literal; [undefined] prints
    as such, which the handler never reaches. *)
Definition boundText (b : option N) : jsstring :=
  match b with
  | Some m => showN m
  | None => lit "undefined"
  end.

(** The length-bounds stage (lines 60-91): both searches run, then the
    too-small field wins. *)
Definition lengthStage (body : gmap string JsValue)
  : Completion (option Response) :=
  tooSmallField ← Js.find (isTooSmall body) (keys sizedFields);
  tooLargeField ← Js.find (isTooLarge body) (keys sizedFields);
  match tooSmallField, tooLargeField with
  | Some f, _ =>
      mret (Some (validationError
        (lit "Must be at least " ++ boundText (min (sized f))
           ++ lit " characters long") f))
  | None, Some f =>
      mret (Some (validationError
        (lit "Must be at most " ++ boundText (max (sized f))
           ++ lit " characters long") f))
  | None, None => mret None
  end.

(** The four stages of the handler, each with its early return; [None]
    when the handler goes on to the store. *)
Definition validate (body : gmap string JsValue)
  : Completion (option Response) :=
  missingField ← Js.find (isMissing body) requiredFields;
  match missingField with
  | Some f => mret (Some (validationError (lit "Missing field") f))
  | None =>
  nonStringField ← Js.find (isNonString body) stringFields;
  match nonStringField with
  | Some f =>
      mret (Some (validationError
                    (lit "Incorrect field type: expected string") f))
  | None =>
  nonTrimmedField ← Js.find (isNonTrimmed body) explicityTrimmedFields;
  match nonTrimmedField with
  | Some f =>
      mret (Some (validationError
                    (lit "Cannot start or end with whitespace") f))
  | None => lengthStage body
  end end end.

End Validator.
Import Validator.

(** ** The user collection *)

Module Store.

(** An entry of a user's [locations] array. *)
Record Location : Type := mkLocation {
  loc_id : oid;
  loc_name : JsValue
}.

(** Modelled from the spec: the schema of users/models.js, a file that is
    not embedded here.  Section 3 of the specification gives the
    stored record its fields: an id assigned by the store, the username,
    the password kept as a hash, the ordered locations and the metric
    flag.  Fields hold JavaScript values, as documents do. *)
Record User : Type := mkUser {
  user_id : oid;
  username : JsValue;
  password : JsValue;
  locations : list Location;
  metric : JsValue
}.

(** The update documents the router sends. *)
Inductive Update : Type :=
| Push (name : JsValue)          (* { $push: { locations: { name } } } *)
| Pull (locationId : JsValue)    (* { $pull: { locations: { _id } } } *)
| SetMetric (v : JsValue).       (* { $set: { metric } } *)

(** The calls the router makes on the [User] model. *)
Inductive Call : Type :=
| CallCount (username : JsValue)
| CallCreate (username hash : JsValue)
| CallFindById (id : jsstring)
| CallFindByIdAndUpdate (id : jsstring) (u : Update).

(** Everything a handler can observe or change besides its response. *)
Record World : Type := mkWorld {
  users : list User;       (* the collection, in insertion order *)
  nextId : oid;            (* the next identifier the store hands out *)
  calls : list Call;       (* store calls made so far, oldest first *)
  console : list JsValue   (* what [console.log] has printed *)
}.

Definition Store (A : Type) : Type := World -> A * World.

#[global] Instance Store_ret : MRet Store := fun _ x w => (x, w).
#[global] Instance Store_bind : MBind Store := fun _ _ f c w =>
  let '(x, w') := c w in f x w'.

(** An error object: its enumerable properties. *)
Abbreviation Err := (gmap string JsValue).

Definition record (c : Call) : Store unit := fun w =>
  (tt, mkWorld (users w) (nextId w) (calls w ++ [c]) (console w)).

Definition consoleLog (v : JsValue) : Store unit := fun w =>
  (tt, mkWorld (users w) (nextId w) (calls w) (console w ++ [v])).

Definition getUsers : Store (list User) := fun w => (users w, w).

Definition putUsers (us : list User) : Store unit := fun w =>
  (tt, mkWorld us (nextId w) (calls w) (console w)).

Definition freshId : Store oid := fun w =>
  (nextId w, mkWorld (users w) (N.succ (nextId w)) (calls w) (console w)).

(** Replaces the first element satisfying [p]; returns the replacement. *)
Fixpoint updateFirst {A} (p : A -> bool) (f : A -> A) (l : list A)
  : option A * list A :=
  match l with
  | [] => (None, [])
  | x :: l' =>
      if p x then (Some (f x), f x :: l')
      else let '(r, l'') := updateFirst p f l' in (r, x :: l'')
  end.

Section Operations.

(** Whether a value sent by a client denotes a stored identifier (the
    ObjectId cast and comparison of the driver). *)
Variable idMatches : JsValue -> oid -> bool.

(** Modelled from the spec: the default of [metric] set by the schema of
    users/models.js, a boolean flag whose default value is left to the
    implementation. *)
Variable defaultMetric : bool.

(** Each operation takes [fault], the error the store fails with, if it
    does; a failed operation changes nothing. *)

(** [User.find({ username }).count()] *)
Definition count (fault : option Err) (name : JsValue) : Store (Err + N) :=
  _ ← record (CallCount name);
  match fault with
  | Some e => mret (inl e)
  | None =>
      us ← getUsers;
      mret (inr (N.of_nat
        (length (List.filter (fun u => strictEq (username u) name) us))))
  end.

(** [User.create({ username, password: hash })] *)
Definition create (fault : option Err) (name hash : JsValue)
  : Store (Err + User) :=
  _ ← record (CallCreate name hash);
  match fault with
  | Some e => mret (inl e)
  | None =>
      i ← freshId;
      us ← getUsers;
      let u := mkUser i name hash [] (JBool defaultMetric) in
      _ ← putUsers (us ++ [u]);
      mret (inr u)
  end.

(** [User.findById(id)]: the document, or [None] for [null]. *)
Definition findById (fault : option Err) (id : jsstring)
  : Store (Err + option User) :=
  _ ← record (CallFindById id);
  match fault with
  | Some e => mret (inl e)
  | None =>
      us ← getUsers;
      mret (inr (List.find (fun u => idMatches (JStr id) (user_id u)) us))
  end.

(** The effect of an update document on one user; [i] is the identifier
    a pushed entry receives (only [$push] draws one). *)
Definition applyUpdate (i : oid) (upd : Update) (u : User) : User :=
  match upd with
  | Push name =>
      mkUser (user_id u) (username u) (password u)
             (locations u ++ [mkLocation i name]) (metric u)
  | Pull locationId =>
      mkUser (user_id u) (username u) (password u)
             (List.filter (fun l => negb (idMatches locationId (loc_id l)))
                          (locations u))
             (metric u)
  | SetMetric v =>
      mkUser (user_id u) (username u) (password u) (locations u) v
  end.

(** What an update by identifier finds and leaves in the collection: the
    updated document, if any, and the users afterwards. *)
Definition updated (id : jsstring) (upd : Update) (w : World)
  : option User * list User :=
  updateFirst (fun u => idMatches (JStr id) (user_id u))
    (applyUpdate (match upd with Push _ => nextId w | _ => 0%N end) upd)
    (users w).

(** [User.findByIdAndUpdate(id, upd, { new: true }, callback)]: what the
    callback receives, the error or the updated document ([None] for
    [null] when no user has the id). *)
Definition findByIdAndUpdate (fault : option Err) (id : jsstring)
  (upd : Update) : Store (Err + option User) :=
  _ ← record (CallFindByIdAndUpdate id upd);
  match fault with
  | Some e => mret (inl e)
  | None =>
      i ← match upd with Push _ => freshId | _ => mret 0%N end;
      us ← getUsers;
      let '(r, us') :=
        updateFirst (fun u => idMatches (JStr id) (user_id u))
                    (applyUpdate i upd) us in
      _ ← putUsers us';
      mret (inr r)
  end.

End Operations.

End Store.
Import Store.

(** ** The handlers of the router *)

Module Router.

(** The errors the two store calls of a registration fail with, if they
    do. *)
Record Faults : Type := mkFaults {
  countFault : option Err;
  createFault : option Err
}.

Definition noFaults : Faults := mkFaults None None.

(** A property of a JSON object; [undefined] properties are left out, as
    [JSON.stringify] does. *)
Definition prop (k : string) (v : JsValue) (o : gmap string JsValue)
  : gmap string JsValue :=
  match v with
  | JUndefined => o
  | _ => <[k := v]> o
  end.

Definition locationJSON (l : Location) : JsValue :=
  JObj (prop "_id" (JObjectId (loc_id l)) (prop "name" (loc_name l) ∅)).

(** [res.json(user)] and [res.send(user)] on a document: every stored
    field of the record. *)
Definition toJSON (u : User) : JsValue :=
  JObj (prop "_id" (JObjectId (user_id u))
       (prop "username" (username u)
       (prop "password" (password u)
       (prop "locations" (JArr (map locationJSON (locations u)))
       (prop "metric" (metric u) ∅))))).

(** Modelled from the spec: [user.serialize()] of users/models.js, a file
    that is not embedded here.  Section 4.2: a representation of
    the user that excludes the password field entirely; section 8: it
    carries the username, the assigned id and the locations. *)
Definition serialize (u : User) : JsValue :=
  JObj (prop "id" (JObjectId (user_id u))
       (prop "username" (username u)
       (prop "locations" (JArr (map locationJSON (locations u)))
       (prop "metric" (metric u) ∅)))).

(** What a callback receives as [newData]. *)
Definition docOrNull (r : option User) : JsValue :=
  match r with
  | Some u => toJSON u
  | None => JNull
  end.

(** The rejection of line 102. *)
Definition usernameTaken : Err :=
  <["code" := JNum 422]>
  (<["reason" := JStr (lit "ValidationError")]>
  (<["message" := JStr (lit "Username already taken")]>
  (<["location" := JStr (lit "username")]> ∅))).

Definition internalServerError : Response :=
  json (JNum 500)
    (JObj (<["code" := JNum 500]>
          (<["message" := JStr (lit "Internal server error")]> ∅))).

(** The [.catch] of the registration chain (lines 121-128). *)
Definition onRejected (err : Err) : Response :=
  if strictEq (get err "reason") (JStr (lit "ValidationError"))
  then json (get err "code") (JObj err)
  else internalServerError.

Section Handlers.

Variable idMatches : JsValue -> oid -> bool.
Variable defaultMetric : bool.

(** [User.hashPassword] of users/models.js, a file that is not embedded
    here: it resolves to the hash or rejects with an error. *)
Variable hashPassword : JsValue -> Err + JsValue.

(** The promise chain of lines 97-117: what it settles to, the created
    user or the rejection reason. *)
Definition registerChain (faults : Faults) (body : gmap string JsValue)
  : Store (Err + User) :=
  let username := get body "username" in
  let password := get body "password" in
  c ← count (countFault faults) username;
  match c with
  | inl err => mret (inl err)
  | inr n =>
      if (0 <? n)%N then mret (inl usernameTaken)
      else
        match hashPassword password with
        | inl err => mret (inl err)
        | inr hash => create defaultMetric (createFault faults) username hash
        end
  end.

(** [router.post("/")] *)
Definition register (faults : Faults) (body : gmap string JsValue)
  : Store Outcome :=
  match validate body with
  | inl e => mret (Threw e)
  | inr (Some response) => mret (Sent response)
  | inr None =>
      r ← registerChain faults body;
      match r with
      | inr user => mret (Sent (json (JNum 201) (serialize user)))
      | inl err => mret (Sent (onRejected err))
      end
  end.

(** The [.catch(err => next(err))] of the three read handlers: [next] is
    not a parameter of the handler nor defined anywhere in the module. *)
Definition callNext (err : Err) : Store Outcome :=
  mret (Threw (ReferenceError "next is not defined")).

(** [router.get("/:id")] *)
Definition getUser (fault : option Err) (id : jsstring) : Store Outcome :=
  r ← findById idMatches fault id;
  match r with
  | inr None => mret (Sent (endWith (JNum 404)))
  | inr (Some user) => mret (Sent (json (JNum 200) (toJSON user)))
  | inl err => callNext err
  end.

(** [router.get("/locations/:id")] *)
Definition getLocations (fault : option Err) (id : jsstring)
  : Store Outcome :=
  r ← findById idMatches fault id;
  match r with
  | inr None => mret (Sent (endWith (JNum 404)))
  | inr (Some user) =>
      mret (Sent (json (JNum 200)
                       (JArr (map locationJSON (locations user)))))
  | inl err => callNext err
  end.

(** [router.get("/metric/:id")] *)
Definition getMetric (fault : option Err) (id : jsstring) : Store Outcome :=
  r ← findById idMatches fault id;
  match r with
  | inr None => mret (Sent (endWith (JNum 404)))
  | inr (Some user) => mret (Sent (json (JNum 200) (metric user)))
  | inl err => callNext err
  end.

(** [router.post("/newlocation/:id")]; [console.err] is not a function. *)
Definition newLocation (fault : option Err) (id : jsstring)
  (body : gmap string JsValue) : Store Outcome :=
  r ← findByIdAndUpdate idMatches fault id (Push (get body "name"));
  match r with
  | inl err => mret (Threw (TypeError "console.err is not a function"))
  | inr newData => mret (Sent (send (docOrNull newData)))
  end.

(** [router.delete("/deletelocation/:id")] *)
Definition deleteLocation (fault : option Err) (id : jsstring)
  (body : gmap string JsValue) : Store Outcome :=
  r ← findByIdAndUpdate idMatches fault id (Pull (get body "locationId"));
  match r with
  | inl err => _ ← consoleLog (JObj err); mret NoResponse
  | inr newData => mret (Sent (send (docOrNull newData)))
  end.

(** [router.put("/metric/:id")] *)
Definition setMetric (fault : option Err) (id : jsstring)
  (body : gmap string JsValue) : Store Outcome :=
  r ← findByIdAndUpdate idMatches fault id (SetMetric (get body "metric"));
  match r with
  | inl err => _ ← consoleLog (JObj err); mret NoResponse
  | inr newData => mret (Sent (send (docOrNull newData)))
  end.

End Handlers.

End Router.
Import Router.

(** ** The field validator as the specification words it (section 4.1)

    Stated on the payload directly, rule by rule, to be compared with
    [validate]. *)

Module FieldValidator.

Inductive Kind : Type :=
| MissingField
| InvalidType
| UntrimmedValue
| TooShort (bound : N)
| TooLong (bound : N).

Record Failure : Type := mkFailure { kind : Kind; field : string }.

(** Rule 1: the key must be present. *)
Definition presence (body : gmap string JsValue) (f : string)
  : option Failure :=
  match body !! f with
  | None => Some (mkFailure MissingField f)
  | Some _ => None
  end.

(** Rule 2: the field, if present, must be string-typed. *)
Definition stringType (body : gmap string JsValue) (f : string)
  : option Failure :=
  match body !! f with
  | Some (JStr _) | None => None
  | Some _ => Some (mkFailure InvalidType f)
  end.

(** Rule 3: the raw value must equal its trimmed form. *)
Definition noBoundaryWhitespace (body : gmap string JsValue) (f : string)
  : option Failure :=
  match body !! f with
  | Some (JStr s) =>
      if decide (trim s = s) then None else Some (mkFailure UntrimmedValue f)
  | _ => None
  end.

(** Rule 4, lower bound: at least [bound] characters after trimming. *)
Definition notTooShort (bound : N) (body : gmap string JsValue) (f : string)
  : option Failure :=
  match body !! f with
  | Some (JStr s) =>
      if decide (N.of_nat (length (trim s)) < bound)%N
      then Some (mkFailure (TooShort bound) f) else None
  | _ => None
  end.

(** Rule 4, upper bound: at most [bound] characters after trimming. *)
Definition notTooLong (bound : N) (body : gmap string JsValue) (f : string)
  : option Failure :=
  match body !! f with
  | Some (JStr s) =>
      if decide (bound < N.of_nat (length (trim s)))%N
      then Some (mkFailure (TooLong bound) f) else None
  | _ => None
  end.

(** The first failure of a sequence of checks. *)
Fixpoint firstOf (checks : list (option Failure)) : option Failure :=
  match checks with
  | [] => None
  | Some x :: _ => Some x
  | None :: rest => firstOf rest
  end.

(** The rules in their fixed order; within the length rule the too-short
    checks come before the too-long one. *)
Definition firstViolation (body : gmap string JsValue) : option Failure :=
  firstOf
    [ presence body "username"; presence body "password";
      stringType body "username"; stringType body "password";
      noBoundaryWhitespace body "username";
      noBoundaryWhitespace body "password";
      notTooShort 1 body "username"; notTooShort 4 body "password";
      notTooLong 72 body "password" ].

Definition message (k : Kind) : jsstring :=
  match k with
  | MissingField => lit "Missing field"
  | InvalidType => lit "Incorrect field type: expected string"
  | UntrimmedValue => lit "Cannot start or end with whitespace"
  | TooShort bound => atLeast bound
  | TooLong bound => atMost bound
  end.

(** The 422 response that reports a failure. *)
Definition report (x : Failure) : Response :=
  validationError (message (kind x)) (field x).

End FieldValidator.

(** ** Vocabulary of the statements *)

(** A property value as JSON shows it: [undefined] is left out. *)
Definition defined (v : JsValue) : option JsValue :=
  match v with
  | JUndefined => None
  | _ => Some v
  end.


(** Two states of a user that differ at most in [locations]. *)
Definition sameButLocations (u u' : User) : Prop :=
  user_id u' = user_id u /\ username u' = username u
  /\ password u' = password u /\ metric u' = metric u.

(** Two states of a user that differ at most in [metric]. *)
Definition sameButMetric (u u' : User) : Prop :=
  user_id u' = user_id u /\ username u' = username u
  /\ password u' = password u /\ locations u' = locations u.


(** The world after one more store call and nothing else. *)
Definition afterCall (c : Call) (w : World) : World :=
  mkWorld (users w) (nextId w) (calls w ++ [c]) (console w).

(** ** Sample data for the concrete instances *)

Module Sample.

(** Identifiers written in decimal. *)
Definition decimalIdMatches (v : JsValue) (i : oid) : bool :=
  strictEq v (JStr (showN i)).

(** A stand-in for the hash: a prefix and the reversed password. *)
Definition reverseHash (v : JsValue) : Err + JsValue :=
  match v with
  | JStr s => inr (JStr (lit "$2a$10$" ++ rev s))
  | _ => inl (<["message" := JStr (lit "Illegal arguments")]> ∅)
  end.

Definition payload (name pass : JsValue) : gmap string JsValue :=
  <["username" := name]> (<["password" := pass]> ∅).

Definition longPassword : jsstring := repeat 97%N 73.

Definition emptyNameLongPassword : gmap string JsValue :=
  payload (JStr []) (JStr longPassword).

Definition bobPayload : gmap string JsValue :=
  payload (JStr (lit "bob")) (JStr (lit "secret1")).

Definition aliceAgain : gmap string JsValue :=
  payload (JStr (lit "alice")) (JStr (lit "validpass")).


Definition emptyWorld : World := mkWorld [] 0%N [] [].

Definition alice : User :=
  mkUser 0%N (JStr (lit "alice")) (JStr (lit "$2a$10$ssapdilav"))
         [mkLocation 1%N (JStr (lit "Paris"))] (JBool true).

Definition carol : User :=
  mkUser 2%N (JStr (lit "carol")) (JStr (lit "$2a$10$terces")) [] (JBool false).

Definition aliceWorld : World := mkWorld [alice; carol] 3%N [] [].

Definition bob : User :=
  mkUser 0%N (JStr (lit "bob")) (JStr (lit "$2a$10$1terces")) [] (JBool true).

Definition bobWorld : World :=
  mkWorld [bob] 1%N
    [CallCount (JStr (lit "bob"));
     CallCreate (JStr (lit "bob")) (JStr (lit "$2a$10$1terces"))] [].





Definition parisId : gmap string JsValue :=
  <["locationId" := JStr (lit "1")]> ∅.

End Sample.

(** ** The application module: the guarded endpoint and the server
    lifecycle *)

Module Server.

(** What the process does to the outside, in order. *)
Inductive Effect : Type :=
| MongooseConnect
| AppListen
| MongooseDisconnect
| ServerClose
| Log (line : jsstring).

(** The object [app.listen] returns. *)
Inductive HttpServer : Type := httpServer.

(** The module-level [let server] and the effects so far, oldest first. *)
Record Process : Type := mkProcess {
  server : option HttpServer;
  effects : list Effect
}.

(** How a promise settles. *)
Inductive Settled : Type :=
| Resolved
| RejectedWith (reason : Err)
| RejectedThrown (e : Exn).

Definition emit (e : Effect) (p : Process) : Process :=
  mkProcess (server p) (effects p ++ [e]).

Section Lifecycle.

(** [PORT] of the configuration module, as a template literal prints it. *)
Variable PORT : jsstring.

(** [runServer()]: [connectError] is what the callback of
    [mongoose.connect] receives, [listenError] what the error event of
    the listening attempt carries; the attempt either calls back or
    emits the error. *)
Definition runServer (connectError listenError : option Err) (p : Process)
  : Settled * Process :=
  let p := emit MongooseConnect p in
  match connectError with
  | Some err => (RejectedWith err, p)
  | None =>
      let p := mkProcess (Some httpServer) (effects p ++ [AppListen]) in
      match listenError with
      | None =>
          (Resolved,
           emit (Log (lit "Your app is listening on port " ++ PORT)) p)
      | Some err => (RejectedWith err, emit MongooseDisconnect p)
      end
  end.

(** [closeServer()]: [disconnectError] is what [mongoose.disconnect()]
    rejects with, [closeError] what the callback of [server.close]
    receives. *)
Definition closeServer (disconnectError closeError : option Err)
  (p : Process) : Settled * Process :=
  let p := emit MongooseDisconnect p in
  match disconnectError with
  | Some err => (RejectedWith err, p)
  | None =>
      let p := emit (Log (lit "Closing server")) p in
      match server p with
      | None =>
          (RejectedThrown
             (TypeError "Cannot read property 'close' of undefined"), p)
      | Some _ =>
          let p := emit ServerClose p in
          match closeError with
          | Some err => (RejectedWith err, p)
          | None => (Resolved, p)
          end
      end
  end.

End Lifecycle.

Section Protected.

Variable idMatches : JsValue -> oid -> bool.

(** [app.get("/api/protected/:id", jwtAuth, ...)]: [guard] is the answer
    of the authentication middleware when it ends the request itself,
    [None] when it calls [next].  The handler has no [next] of its own
    either. *)
Definition protectedLocations (guard : option Response)
  (fault : option Err) (id : jsstring) : Store Outcome :=
  match guard with
  | Some refusal => mret (Sent refusal)
  | None =>
      r ← findById idMatches fault id;
      match r with
      | inr None => mret (Sent (endWith (JNum 404)))
      | inr (Some user) =>
          mret (Sent (json (JNum 200)
                           (JArr (map locationJSON (locations user)))))
      | inl err => mret (Threw (ReferenceError "next is not defined"))
      end
  end.

End Protected.

End Server.

(** ** Further vocabulary *)

Definition startsWithWhiteSpace (s : jsstring) : bool :=
  match s with
  | c :: _ => isWhiteSpace c
  | [] => false
  end.

Definition endsWithWhiteSpace (s : jsstring) : bool :=
  startsWithWhiteSpace (rev s).

(** A string the registration accepts as a credential of the given
    length bounds. *)
Definition credential (lo : N) (hi : option N) (s : jsstring) : Prop :=
  startsWithWhiteSpace s = false /\ endsWithWhiteSpace s = false
  /\ (lo <= N.of_nat (length s))%N
  /\ match hi with
     | Some m => (N.of_nat (length s) <= m)%N
     | None => True
     end.

(** No two stored users have the same username. *)
Definition usernamesUnique (w : World) : Prop :=
  NoDup (map username (users w)).

(** No stored location entry is denoted by [locationId]. *)
Definition denotesNoEntry (idMatches : JsValue -> oid -> bool)
  (locationId : JsValue) (w : World) : Prop :=
  Forall (fun u =>
            Forall (fun l => idMatches locationId (loc_id l) = false)
                   (locations u))
         (users w).

(** ** More sample data *)

Module Sample2.

Definition rome : gmap string JsValue := <["name" := JStr (lit "Rome")]> ∅.

(** The locationId of the entry the next push creates in
    [Sample.aliceWorld]. *)
Definition nextEntry : gmap string JsValue :=
  <["locationId" := JStr (lit "3")]> ∅.

(** A locationId no stored entry has. *)
Definition noEntry : gmap string JsValue :=
  <["locationId" := JStr (lit "7")]> ∅.

Definition bobWithEmail : gmap string JsValue :=
  <["email" := JStr (lit "bob@example.org")]> Sample.bobPayload.

Definition bobOtherPassword : gmap string JsValue :=
  Sample.payload (JStr (lit "bob")) (JStr (lit "another1")).

Definition freshProcess : Server.Process := Server.mkProcess None [].

Definition port : jsstring := lit "8080".

End Sample2.

(** * Properties *)

(** ** Reading a payload *)

Lemma has_lookup (body : gmap string JsValue) (f : string) :
  has body f = match body !! f with Some _ => true | None => false end.
Proof.
  unfold has. destruct (body !! f) as [v|].
  - apply bool_decide_eq_true. eauto.
  - apply bool_decide_eq_false. intros [v Hv]. discriminate.
Qed.

Lemma get_lookup (body : gmap string JsValue) (f : string) :
  get body f = match body !! f with Some v => v | None => JUndefined end.
Proof. unfold get. destruct (body !! f); reflexivity. Qed.

(** The validator on a payload whose two fields are known. *)
Ltac read_fields :=
  unfold validate, lengthStage, isMissing, isNonString, isNonTrimmed,
    isTooSmall, isTooLarge, trimmedLength,
    requiredFields, stringFields, explicityTrimmedFields, keys, sizedFields;
  cbn [Js.find map fst mbind mret Completion_bind Completion_ret];
  rewrite ?has_lookup, ?get_lookup.

Lemma validate_refines (body : gmap string JsValue) :
  validate body
  = inr (FieldValidator.report <$> FieldValidator.firstViolation body).
Proof.
  unfold FieldValidator.firstViolation, FieldValidator.presence,
    FieldValidator.stringType, FieldValidator.noBoundaryWhitespace,
    FieldValidator.notTooShort, FieldValidator.notTooLong.
  read_fields.
  destruct (body !! "username") as [[| | | |u| | |]|] eqn:Hu;
  destruct (body !! "password") as [[| | | |p| | |]|] eqn:Hp;
  cbn; try reflexivity.
  destruct (decide (trim u = u)) as [Eu|Eu];
    [rewrite (bool_decide_eq_true_2 _ Eu)
    |rewrite (bool_decide_eq_false_2 _ Eu); reflexivity].
  destruct (decide (trim p = p)) as [Ep|Ep];
    [rewrite (bool_decide_eq_true_2 _ Ep)
    |rewrite (bool_decide_eq_false_2 _ Ep); reflexivity].
  cbn.
  repeat match goal with
         | |- context [(?a <? ?b)%N] => destruct (N.ltb_spec a b)
         end;
  repeat case_decide; try lia; reflexivity.
Qed.

Lemma lit_inj (a b : string) : lit a = lit b -> a = b.
Proof.
  unfold lit. intros H.
  rewrite <- (string_of_list_ascii_of_string a),
          <- (string_of_list_ascii_of_string b).
  f_equal. revert H.
  generalize (list_ascii_of_string a) (list_ascii_of_string b).
  induction l as [|x l IH]; intros [|y l']; cbn; intros H;
    try discriminate; [reflexivity|].
  injection H as Hxy Hl. f_equal; [|auto].
  rewrite <- (ascii_N_embedding x), <- (ascii_N_embedding y).
  now rewrite Hxy.
Qed.

(** The parts of a validation-error response. *)
Lemma validationError_inv (m1 m2 : jsstring) (f1 f2 : string) :
  validationError m1 f1 = validationError m2 f2 -> m1 = m2 /\ f1 = f2.
Proof.
  unfold validationError, json. intros H.
  split.
  - apply (f_equal (bodyProperty "message")) in H.
    unfold bodyProperty in H. cbn [payload] in H.
    simplify_map_eq. reflexivity.
  - apply (f_equal (bodyProperty "location")) in H.
    unfold bodyProperty in H. cbn [payload] in H.
    simplify_map_eq. now apply lit_inj.
Qed.

Lemma inr_Some_inj {E A : Type} (a b : A) :
  (inr (Some a) : E + option A) = inr (Some b) -> a = b.
Proof. intros H. injection H. auto. Qed.

(** ** C2 *)

(** C2: for every registration payload the validator answers with exactly
    the first violated rule in the fixed order presence, string type, no
    boundary whitespace, length bounds, and with nothing when no rule is
    violated; the type failure is never reported for an absent field. *)
Theorem validate_reports_first_violation (body : gmap string JsValue) :
  validate body
    = inr (FieldValidator.report <$> FieldValidator.firstViolation body)
  /\ (forall f : string,
        body !! f = None ->
        validate body
          <> inr (Some (validationError
                         (lit "Incorrect field type: expected string") f))).
Proof.
  split; [apply validate_refines|].
  intros f Hf. rewrite validate_refines.
  unfold FieldValidator.firstViolation.
  intros H.
  destruct (body !! "username") as [vu|] eqn:Hu.
  2:{ unfold FieldValidator.presence in H. rewrite Hu in H.
      apply inr_Some_inj, validationError_inv in H as [H _].
      discriminate. }
  destruct (body !! "password") as [vp|] eqn:Hp.
  2:{ unfold FieldValidator.presence in H. rewrite Hu, Hp in H.
      apply inr_Some_inj, validationError_inv in H as [H _].
      discriminate. }
  assert (Hin : forall x,
             FieldValidator.firstOf
               [FieldValidator.presence body "username";
                FieldValidator.presence body "password";
                FieldValidator.stringType body "username";
                FieldValidator.stringType body "password";
                FieldValidator.noBoundaryWhitespace body "username";
                FieldValidator.noBoundaryWhitespace body "password";
                FieldValidator.notTooShort 1 body "username";
                FieldValidator.notTooShort 4 body "password";
                FieldValidator.notTooLong 72 body "password"] = Some x ->
             FieldValidator.field x = "username"
             \/ FieldValidator.field x = "password").
  { intros x. unfold FieldValidator.presence, FieldValidator.stringType,
      FieldValidator.noBoundaryWhitespace, FieldValidator.notTooShort,
      FieldValidator.notTooLong. rewrite Hu, Hp.
    destruct vu, vp; cbn; repeat case_decide; cbn;
      intros Hx; try discriminate; injection Hx as <-; cbn; auto. }
  destruct (FieldValidator.firstOf _) as [x|] eqn:Hx; [|discriminate].
  apply inr_Some_inj, validationError_inv in H as [_ H].
  destruct (Hin x eq_refl) as [E|E]; rewrite E in H; subst f; congruence.
Qed.

(** At a payload without a username and with a numeric password the
    report is the missing username, not the type of any field. *)
Lemma validate_reports_first_violation_witness :
  validate (<["password" := JNum 7]> ∅)
    <> inr (Some (validationError
                   (lit "Incorrect field type: expected string") "username")).
Proof.
  apply (proj2 (validate_reports_first_violation (<["password" := JNum 7]> ∅))
               "username").
  reflexivity.
Defined.

(** ** C4 *)

(** The sized fields and their bounds. *)
Lemma sized_min_cases (f : string) (m : N) :
  In f (keys sizedFields) -> min (sized f) = Some m ->
  (f = "username" /\ m = 1%N) \/ (f = "password" /\ m = 4%N).
Proof.
  cbn. intros [<-|[<-|[]]]; cbn; intros [= <-]; auto.
Qed.

Lemma sized_max_cases (g : string) (M : N) :
  In g (keys sizedFields) -> max (sized g) = Some M ->
  g = "password" /\ M = 72%N.
Proof.
  cbn. intros [<-|[<-|[]]]; cbn; intros [= <-]; auto.
Qed.

(** C4: when the trimmed value of one sized field is below its minimum
    and the trimmed value of another is above its maximum, the
    length-bounds stage reports the too-short field with its minimum, not
    the too-long one; so does the whole validator for a payload that
    reaches the stage. *)
Theorem length_stage_reports_too_short_first
  (body : gmap string JsValue) (f g : string) (s t : jsstring) (m M : N) :
  In f (keys sizedFields) -> In g (keys sizedFields) ->
  body !! f = Some (JStr s) -> body !! g = Some (JStr t) ->
  min (sized f) = Some m -> (N.of_nat (length (trim s)) < m)%N ->
  max (sized g) = Some M -> (M < N.of_nat (length (trim t)))%N ->
  lengthStage body = inr (Some (validationError (atLeast m) f))
  /\ lengthStage body <> inr (Some (validationError (atMost M) g))
  /\ (trim s = s -> trim t = t ->
      validate body = inr (Some (validationError (atLeast m) f))).
Proof.
  intros Hf Hg Hs Ht Hm Hlo HM Hhi.
  destruct (sized_max_cases g M Hg HM) as [-> ->].
  destruct (sized_min_cases f m Hf Hm) as [[-> ->]|[-> ->]].
  2:{ rewrite Hs in Ht. injection Ht as ->. lia. }
  assert (Hstage :
    lengthStage body = inr (Some (validationError (atLeast 1) "username"))).
  { read_fields. rewrite Hs, Ht. cbn.
    destruct (N.ltb_spec (N.of_nat (length (trim s))) 1); [|lia].
    destruct (N.ltb_spec (N.of_nat (length (trim t))) 4); [lia|].
    destruct (N.ltb_spec 72 (N.of_nat (length (trim t)))); [|lia].
    reflexivity. }
  split; [exact Hstage|]. split.
  - rewrite Hstage. intros H.
    apply inr_Some_inj, validationError_inv in H as [_ H]. discriminate.
  - intros Es Et. rewrite <- Hstage. read_fields. rewrite Hs, Ht. cbn.
    rewrite !bool_decide_eq_true_2 by assumption. reflexivity.
Qed.

(** An empty username with a password of 73 characters. *)
Lemma length_stage_reports_too_short_first_witness :
  lengthStage Sample.emptyNameLongPassword
  = inr (Some (validationError (atLeast 1) "username")).
Proof.
  refine (proj1 (length_stage_reports_too_short_first
                   Sample.emptyNameLongPassword
                   "username" "password" [] Sample.longPassword 1%N 72%N
                   _ _ _ _ _ _ _ _)).
  - left. reflexivity.
  - right. left. reflexivity.
  - reflexivity.
  - reflexivity.
  - reflexivity.
  - vm_compute. reflexivity.
  - reflexivity.
  - vm_compute. reflexivity.
Defined.

(** * Properties of the handlers *)

Section Correctness.

Variable idMatches : JsValue -> oid -> bool.
Variable defaultMetric : bool.
Variable hashPassword : JsValue -> Err + JsValue.

Local Abbreviation register := (register defaultMetric hashPassword).
Local Abbreviation registerChain := (registerChain defaultMetric hashPassword).
Local Abbreviation getUser := (getUser idMatches).
Local Abbreviation getLocations := (getLocations idMatches).
Local Abbreviation getMetric := (getMetric idMatches).
Local Abbreviation newLocation := (newLocation idMatches).
Local Abbreviation deleteLocation := (deleteLocation idMatches).
Local Abbreviation setMetric := (setMetric idMatches).
Local Abbreviation updated := (updated idMatches).

(** ** C5 *)

(** C5: a payload that violates a rule of the field validator is answered
    with the 422 report of that rule and nothing else happens: no store
    call is made, the collection, the identifier supply and the console
    are as before. *)
Theorem validation_failure_leaves_world_untouched
  (faults : Faults) (body : gmap string JsValue) (w : World)
  (x : FieldValidator.Failure) :
  FieldValidator.firstViolation body = Some x ->
  register faults body w = (Sent (FieldValidator.report x), w)
  /\ status (FieldValidator.report x) = JNum 422
  /\ bodyProperty "reason" (FieldValidator.report x)
     = Some (JStr (lit "ValidationError")).
Proof.
  intros Hx. unfold Router.register.
  rewrite validate_refines, Hx. cbn. repeat split.
Qed.

Lemma bind_run {A B : Type} (c : Store A) (f : A -> Store B) (w : World) :
  (c ≫= f) w = f (fst (c w)) (snd (c w)).
Proof. unfold mbind, Store_bind. destruct (c w). reflexivity. Qed.

(** Runs the store computation of the goal. *)
Ltac run :=
  unfold count, create, findById, findByIdAndUpdate,
    record, getUsers, putUsers, freshId, consoleLog;
  unfold mbind, mret, Store_bind, Store_ret;
  cbn beta iota zeta delta [fst snd users nextId calls console].

(** What a payload that passes the validator looks like. *)
Lemma valid_payload (body : gmap string JsValue) :
  FieldValidator.firstViolation body = None ->
  exists s p : jsstring,
    body !! "username" = Some (JStr s) /\ body !! "password" = Some (JStr p)
    /\ trim s = s /\ trim p = p
    /\ (1 <= N.of_nat (length s))%N
    /\ (4 <= N.of_nat (length p) <= 72)%N.
Proof.
  unfold FieldValidator.firstViolation, FieldValidator.presence,
    FieldValidator.stringType, FieldValidator.noBoundaryWhitespace,
    FieldValidator.notTooShort, FieldValidator.notTooLong.
  destruct (body !! "username") as [[| | | |s| | |]|];
  destruct (body !! "password") as [[| | | |p| | |]|];
  cbn; try discriminate.
  repeat case_decide; cbn; try discriminate.
  intros _. exists s, p.
  repeat match goal with H : trim _ = _ |- _ => rewrite H in * end.
  repeat split; try reflexivity; try assumption; lia.
Qed.

Lemma count_positive (name : JsValue) (us : list User) (u : User) :
  In u us -> strictEq (username u) name = true ->
  (0 <? N.of_nat (length
          (List.filter (fun u => strictEq (username u) name) us)))%N = true.
Proof.
  intros Hin Heq.
  assert (H : In u (List.filter (fun u => strictEq (username u) name) us))
    by (apply filter_In; auto).
  destruct (List.filter _ us); [destruct H|].
  apply N.ltb_lt. cbn [length]. lia.
Qed.

(** ** C3 *)


Lemma strictEq_str_true (v : JsValue) (s : jsstring) :
  strictEq v (JStr s) = true <-> v = JStr s.
Proof.
  destruct v; cbn; try (split; [discriminate|intros [=]]).
  rewrite bool_decide_eq_true. split; [now intros ->|now intros [= ->]].
Qed.

(** ** C6 *)


(** Where a rejection of the chain comes from: the count query, the
    uniqueness check of line 100, the hash, or the creation. *)
Lemma registerChain_rejections
  (faults : Faults) (body : gmap string JsValue) (w w' : World) (err : Err) :
  registerChain faults body w = (inl err, w') ->
  countFault faults = Some err
  \/ err = usernameTaken
  \/ hashPassword (get body "password") = inl err
  \/ createFault faults = Some err.
Proof.
  unfold Router.registerChain. run.
  destruct (countFault faults) as [e|]; [intros [= <- _]; auto|].
  destruct (0 <? _)%N; [intros [= <- _]; auto|].
  destruct (hashPassword (get body "password")) as [e|hash];
    [intros [= <- _]; auto|].
  destruct (createFault faults) as [e|]; [intros [= <- _]; auto|].
  discriminate.
Qed.

Lemma registerChain_count_fault
  (faults : Faults) (body : gmap string JsValue) (w : World) (err : Err) :
  countFault faults = Some err ->
  registerChain faults body w
  = (inl err, afterCall (CallCount (get body "username")) w).
Proof. intros H. unfold Router.registerChain. rewrite H. reflexivity. Qed.

Lemma registerChain_hash_fault
  (faults : Faults) (body : gmap string JsValue) (w : World) (err : Err) :
  countFault faults = None ->
  Forall (fun u => strictEq (username u) (get body "username") = false)
         (users w) ->
  hashPassword (get body "password") = inl err ->
  registerChain faults body w
  = (inl err, afterCall (CallCount (get body "username")) w).
Proof.
  intros Hc Hnone Hh. unfold Router.registerChain. rewrite Hc. run.
  replace (List.filter _ (users w)) with (@nil User).
  - cbn. rewrite Hh. reflexivity.
  - symmetry. induction Hnone as [|u us Hu _ IH]; cbn; [reflexivity|].
    now rewrite Hu.
Qed.

Lemma lookup_prop (k k' : string) (v : JsValue) (o : gmap string JsValue) :
  prop k v o !! k'
  = if decide (k = k')
    then match v with JUndefined => o !! k' | _ => Some v end
    else o !! k'.
Proof.
  unfold prop. case_decide as E.
  - subst k'. destruct v; try reflexivity; apply lookup_insert_eq.
  - destruct v; try reflexivity; now apply lookup_insert_ne.
Qed.

Ltac props :=
  repeat (rewrite lookup_prop; case_decide; try congruence);
  try rewrite lookup_empty.

Lemma serialize_has_no_password (u : User) :
  bodyProperty "password" (json (JNum 201) (serialize u)) = None.
Proof. unfold bodyProperty, serialize, json. cbn [payload]. props. reflexivity. Qed.

Lemma toJSON_password (u : User) :
  bodyProperty "password" (json (JNum 200) (toJSON u)) = defined (password u).
Proof.
  unfold bodyProperty, toJSON, json. cbn [payload].
  destruct (password u); props; reflexivity.
Qed.

(** ** C1 *)

(** C1: the answer of Register to a payload that creates a user carries no
    password property, but the answer of Get user for that user is the
    stored document and carries the password property with the hash the
    record holds. *)
Theorem get_user_discloses_password_hash
  (faults : Faults) (body : gmap string JsValue) (w w' : World)
  (user : User) (id : jsstring) :
  FieldValidator.firstViolation body = None ->
  registerChain faults body w = (inr user, w') ->
  List.find (fun u => idMatches (JStr id) (user_id u)) (users w') = Some user ->
  (exists r, register faults body w = (Sent r, w')
             /\ status r = JNum 201
             /\ bodyProperty "password" r = None)
  /\ (exists r, fst (getUser None id w') = Sent r
             /\ status r = JNum 200
             /\ bodyProperty "password" r = defined (password user))
  /\ hashPassword (get body "password") = inr (password user).
Proof.
  intros Hv Hchain Hfind. repeat split.
  - exists (json (JNum 201) (serialize user)).
    unfold Router.register. rewrite validate_refines, Hv.
    cbn [fmap option_fmap option_map].
    rewrite bind_run, Hchain. cbn [fst snd].
    repeat split. apply serialize_has_no_password.
  - exists (json (JNum 200) (toJSON user)).
    unfold Router.getUser. run. rewrite Hfind.
    repeat split. apply toJSON_password.
  - revert Hchain. unfold Router.registerChain. run.
    destruct (countFault faults); [discriminate|].
    destruct (0 <? _)%N; [discriminate|].
    destruct (hashPassword (get body "password")) as [e|h]; [discriminate|].
    destruct (createFault faults); [discriminate|].
    intros [= <- _]. reflexivity.
Qed.

(** ** C10 *)

(** C10: when the store call of a read handler or of a mutator fails, no
    response is sent.  The read handlers throw a ReferenceError for next;
    add-location throws a TypeError for console.err and logs nothing;
    remove-location and set-metric log the error and end.  Nothing is
    stored. *)
Theorem store_failure_sends_no_response
  (err : Err) (id : jsstring) (body : gmap string JsValue) (w : World) :
  getUser (Some err) id w
    = (Threw (ReferenceError "next is not defined"),
       afterCall (CallFindById id) w)
  /\ getLocations (Some err) id w
    = (Threw (ReferenceError "next is not defined"),
       afterCall (CallFindById id) w)
  /\ getMetric (Some err) id w
    = (Threw (ReferenceError "next is not defined"),
       afterCall (CallFindById id) w)
  /\ newLocation (Some err) id body w
    = (Threw (TypeError "console.err is not a function"),
       afterCall (CallFindByIdAndUpdate id (Push (get body "name"))) w)
  /\ deleteLocation (Some err) id body w
    = (NoResponse,
       mkWorld (users w) (nextId w)
         (calls w
            ++ [CallFindByIdAndUpdate id (Pull (get body "locationId"))])
         (console w ++ [JObj err]))
  /\ setMetric (Some err) id body w
    = (NoResponse,
       mkWorld (users w) (nextId w)
         (calls w
            ++ [CallFindByIdAndUpdate id (SetMetric (get body "metric"))])
         (console w ++ [JObj err])).
Proof. repeat split. Qed.

(** ** Targeted updates *)

Lemma updateFirst_Forall2 {A : Type} (R : A -> A -> Prop)
  (p : A -> bool) (f : A -> A) (l : list A) :
  (forall x, R x x) -> (forall x, p x = true -> R x (f x)) ->
  Forall2 R l (snd (updateFirst p f l)).
Proof.
  intros Hrefl Hf. induction l as [|x l IH]; cbn; [constructor|].
  destruct (p x) eqn:E; cbn.
  - constructor; [auto|]. clear IH. induction l; constructor; auto.
  - destruct (updateFirst p f l) as [r l'']. cbn in *. constructor; auto.
Qed.

Lemma updateFirst_idem {A : Type} (p : A -> bool) (f : A -> A) (l : list A) :
  (forall x, p (f x) = p x) -> (forall x, f (f x) = f x) ->
  updateFirst p f (snd (updateFirst p f l)) = updateFirst p f l.
Proof.
  intros Hp Hf. induction l as [|x l IH]; cbn; [reflexivity|].
  destruct (p x) eqn:E; cbn.
  - rewrite Hp, E, Hf. reflexivity.
  - destruct (updateFirst p f l) as [r l'']. cbn in *.
    rewrite E, IH. reflexivity.
Qed.

Lemma updateFirst_find {A : Type} (p : A -> bool) (f : A -> A) (l : list A) :
  (forall x, p (f x) = p x) ->
  List.find p (snd (updateFirst p f l)) = fst (updateFirst p f l)
  /\ fst (updateFirst p f l) = option_map f (List.find p l).
Proof.
  intros Hp. induction l as [|x l IH]; cbn; [auto|].
  destruct (p x) eqn:E; cbn.
  - rewrite Hp, E. auto.
  - destruct (updateFirst p f l) as [r l'']. cbn in *. rewrite E. exact IH.
Qed.

Lemma filter_idem {A : Type} (q : A -> bool) (l : list A) :
  List.filter q (List.filter q l) = List.filter q l.
Proof.
  induction l as [|x l IH]; cbn; [reflexivity|].
  destruct (q x) eqn:E; cbn; [rewrite E|]; now rewrite IH.
Qed.

Lemma pull_idem (i j : oid) (locationId : JsValue) (u : User) :
  applyUpdate idMatches i (Pull locationId)
    (applyUpdate idMatches j (Pull locationId) u)
  = applyUpdate idMatches j (Pull locationId) u.
Proof. destruct u. cbn. now rewrite filter_idem. Qed.

Lemma applyUpdate_id (i : oid) (upd : Update) (u : User) :
  user_id (applyUpdate idMatches i upd u) = user_id u.
Proof. destruct upd; reflexivity. Qed.

Lemma findByIdAndUpdate_fault (err : Err) (id : jsstring) (upd : Update)
  (w : World) :
  findByIdAndUpdate idMatches (Some err) id upd w
  = (inl err, afterCall (CallFindByIdAndUpdate id upd) w).
Proof. reflexivity. Qed.

Lemma findByIdAndUpdate_ok (id : jsstring) (upd : Update) (w : World) :
  findByIdAndUpdate idMatches None id upd w
  = (inr (fst (updated id upd w)),
     mkWorld (snd (updated id upd w))
       (match upd with Push _ => N.succ (nextId w) | _ => nextId w end)
       (calls w ++ [CallFindByIdAndUpdate id upd]) (console w)).
Proof.
  unfold updated. run.
  destruct upd; cbn beta iota zeta delta [fst snd users nextId calls console];
    destruct (updateFirst _ _ (users w)); reflexivity.
Qed.

(** Rewrites a mutator into the outcome of its store call. *)
Ltac mutated :=
  unfold Router.newLocation, Router.deleteLocation, Router.setMetric;
  rewrite ?bind_run;
  rewrite ?findByIdAndUpdate_fault, ?findByIdAndUpdate_ok;
  cbn [fst snd]; unfold consoleLog, mret, Store_ret;
  rewrite ?bind_run; cbn [fst snd users calls console nextId afterCall].

Ltac mutate fault := destruct fault; mutated.

Lemma Forall2_same {A : Type} (R : A -> A -> Prop) (l : list A) :
  (forall x, R x x) -> Forall2 R l l.
Proof. intros HR. induction l; constructor; auto. Qed.

(** The frame of a targeted update: users the identifier does not denote
    are as before, the others are related by whatever the update
    preserves. *)
Lemma updated_frame (R : User -> User -> Prop) (id : jsstring)
  (upd : Update) (w : World) :
  (forall x, R x x) ->
  (forall i x, R x (applyUpdate idMatches i upd x)) ->
  Forall2 (fun u u' => R u u'
             /\ (idMatches (JStr id) (user_id u) = false -> u' = u))
          (users w) (snd (updated id upd w)).
Proof.
  intros Hrefl Hupd. unfold updated. apply updateFirst_Forall2.
  - auto.
  - intros x Hx. split; [apply Hupd|congruence].
Qed.

Lemma sameButLocations_refl (u : User) : sameButLocations u u.
Proof. unfold sameButLocations. auto. Qed.

Lemma sameButMetric_refl (u : User) : sameButMetric u u.
Proof. unfold sameButMetric. auto. Qed.

Create HintDb frame.
#[local] Hint Resolve sameButLocations_refl sameButMetric_refl : frame.

(** The frames of the three mutators. *)
Lemma mutators_frame
  (fault : option Err) (id : jsstring) (body : gmap string JsValue)
  (w : World) :
  Forall2 (fun u u' => sameButLocations u u'
        /\ (idMatches (JStr id) (user_id u) = false -> u' = u))
       (users w) (users (snd (newLocation fault id body w)))
  /\ Forall2 (fun u u' => sameButLocations u u'
        /\ (idMatches (JStr id) (user_id u) = false -> u' = u))
       (users w) (users (snd (deleteLocation fault id body w)))
  /\ Forall2 (fun u u' => sameButMetric u u'
        /\ (idMatches (JStr id) (user_id u) = false -> u' = u))
       (users w) (users (snd (setMetric fault id body w))).
Proof.
  repeat split; mutate fault;
    try (apply Forall2_same; auto with frame);
    apply updated_frame; auto with frame;
    intros i x; repeat split.
Qed.

(** ** C7 *)

(** C7: each of Add location, Remove location and Set metric preference
    makes exactly one store call, the targeted update; afterwards every
    user agrees with its former state on all fields but the targeted one,
    and users the identifier does not denote are as before. *)
Theorem mutators_touch_only_their_field
  (fault : option Err) (id : jsstring) (body : gmap string JsValue)
  (w : World) :
  (calls (snd (newLocation fault id body w))
     = calls w ++ [CallFindByIdAndUpdate id (Push (get body "name"))]
   /\ Forall2 (fun u u' => sameButLocations u u'
        /\ (idMatches (JStr id) (user_id u) = false -> u' = u))
       (users w) (users (snd (newLocation fault id body w))))
  /\ (calls (snd (deleteLocation fault id body w))
     = calls w ++ [CallFindByIdAndUpdate id (Pull (get body "locationId"))]
   /\ Forall2 (fun u u' => sameButLocations u u'
        /\ (idMatches (JStr id) (user_id u) = false -> u' = u))
       (users w) (users (snd (deleteLocation fault id body w))))
  /\ (calls (snd (setMetric fault id body w))
     = calls w ++ [CallFindByIdAndUpdate id (SetMetric (get body "metric"))]
   /\ Forall2 (fun u u' => sameButMetric u u'
        /\ (idMatches (JStr id) (user_id u) = false -> u' = u))
       (users w) (users (snd (setMetric fault id body w)))).
Proof.
  destruct (mutators_frame fault id body w) as (Hpush & Hpull & Hset).
  repeat split; try assumption; mutate fault; reflexivity.
Qed.

(** ** C8 *)

Lemma updated_pull_idem (id : jsstring) (locationId : JsValue)
  (w w1 : World) :
  users w1 = snd (updated id (Pull locationId) w) ->
  updated id (Pull locationId) w1 = updated id (Pull locationId) w.
Proof.
  unfold updated. intros ->. apply updateFirst_idem.
  - intros x. now rewrite applyUpdate_id.
  - intros x. apply pull_idem.
Qed.

(** C8: two Remove location calls with the same locationId leave the
    collection one call leaves; after a call that the store carried out,
    the user found under the identifier has no entry the locationId
    denotes, and a second such call returns the same record. *)
Theorem remove_location_is_idempotent
  (e1 e2 : option Err) (id : jsstring) (body : gmap string JsValue)
  (w : World) :
  users (snd (deleteLocation e2 id body (snd (deleteLocation e1 id body w))))
    = users (snd (deleteLocation
                    (match e1 with None => None | Some _ => e2 end)
                    id body w))
  /\ fst (deleteLocation None id body (snd (deleteLocation None id body w)))
     = fst (deleteLocation None id body w)
  /\ (forall u : User,
        List.find (fun u => idMatches (JStr id) (user_id u))
          (users (snd (deleteLocation None id body w))) = Some u ->
        Forall (fun l => idMatches (get body "locationId") (loc_id l) = false)
               (locations u)).
Proof.
  repeat split.
  - mutate e1; mutate e2; try reflexivity.
    set (w1 := mkWorld _ _ _ _).
    now rewrite (updated_pull_idem id _ w w1 eq_refl).
  - mutated.
    set (w1 := mkWorld _ _ _ _).
    now rewrite (updated_pull_idem id _ w w1 eq_refl).
  - intros u. mutated. unfold updated.
    destruct (updateFirst_find
                (fun u => idMatches (JStr id) (user_id u))
                (applyUpdate idMatches 0%N (Pull (get body "locationId")))
                (users w)) as [-> ->].
    { intros x. now rewrite applyUpdate_id. }
    destruct (List.find _ (users w)) as [u0|]; [|discriminate].
    intros [= <-]. cbn. apply List.Forall_forall. intros l Hl.
    apply filter_In in Hl as [_ Hl]. now apply negb_true_iff in Hl.
Qed.

(** ** C9 *)





End Correctness.

(** * Concrete instances *)

(** A payload without a username, against an empty collection. *)
Lemma validation_failure_leaves_world_untouched_witness :
  Router.register true Sample.reverseHash noFaults ∅ Sample.emptyWorld
  = (Sent (validationError (lit "Missing field") "username"),
     Sample.emptyWorld).
Proof.
  apply (validation_failure_leaves_world_untouched true Sample.reverseHash
           noFaults ∅ Sample.emptyWorld
           (FieldValidator.mkFailure FieldValidator.MissingField "username")).
  reflexivity.
Defined.




(** Registering bob in an empty collection, then fetching the user. *)
Lemma get_user_discloses_password_hash_witness :
  exists r : Response,
    fst (Router.getUser Sample.decimalIdMatches None (lit "0") Sample.bobWorld)
      = Sent r
    /\ status r = JNum 200
    /\ bodyProperty "password" r = Some (JStr (lit "$2a$10$1terces")).
Proof.
  apply (proj1 (proj2 (get_user_discloses_password_hash
                  Sample.decimalIdMatches true Sample.reverseHash
                  noFaults Sample.bobPayload Sample.emptyWorld Sample.bobWorld
                  Sample.bob (lit "0")
                  ltac:(vm_compute; reflexivity)
                  ltac:(vm_compute; reflexivity)
                  ltac:(vm_compute; reflexivity)))).
Defined.

(** Adding a location to alice leaves carol as she was. *)
Lemma mutators_touch_only_their_field_witness :
  Forall2 (fun u u' => sameButLocations u u'
        /\ (Sample.decimalIdMatches (JStr (lit "0")) (user_id u) = false
            -> u' = u))
    (users Sample.aliceWorld)
    (users (snd (Router.newLocation Sample.decimalIdMatches None (lit "0")
                   ∅ Sample.aliceWorld))).
Proof.
  apply (proj2 (proj1 (mutators_touch_only_their_field
                  Sample.decimalIdMatches None (lit "0") ∅
                  Sample.aliceWorld))).
Defined.

(** Removing the location of alice: her record then has none left. *)
Lemma remove_location_is_idempotent_witness :
  Forall (fun l =>
            Sample.decimalIdMatches (get Sample.parisId "locationId") (loc_id l)
            = false)
         (locations
            (mkUser 0%N (JStr (lit "alice")) (JStr (lit "$2a$10$ssapdilav"))
                    [] (JBool true))).
Proof.
  apply (proj2 (proj2 (remove_location_is_idempotent
                  Sample.decimalIdMatches None None (lit "0") Sample.parisId
                  Sample.aliceWorld))).
  vm_compute. reflexivity.
Defined.



(** * Further properties of the validator *)

(** ** Trimming *)

Lemma trimStart_length (s : jsstring) : length (trimStart s) <= length s.
Proof.
  induction s as [|c s IH]; cbn; [lia|].
  destruct (isWhiteSpace c); cbn; lia.
Qed.

Lemma trimStart_fixed (s : jsstring) :
  trimStart s = s <-> startsWithWhiteSpace s = false.
Proof.
  destruct s as [|c s]; cbn; [tauto|].
  destruct (isWhiteSpace c) eqn:E; [|tauto].
  split; [|discriminate].
  intros H. pose proof (trimStart_length s) as Hl.
  rewrite H in Hl. cbn in Hl. lia.
Qed.

Lemma trimEnd_length (s : jsstring) : length (trimEnd s) <= length s.
Proof.
  unfold trimEnd. rewrite length_rev.
  etransitivity; [apply trimStart_length|]. now rewrite length_rev.
Qed.

Lemma trimEnd_fixed (s : jsstring) :
  trimEnd s = s <-> endsWithWhiteSpace s = false.
Proof.
  unfold trimEnd, endsWithWhiteSpace. rewrite <- trimStart_fixed.
  split; intros H.
  - rewrite <- H at 2. now rewrite rev_involutive.
  - rewrite H. apply rev_involutive.
Qed.

(** A string is its own trimmed form exactly when it neither starts nor
    ends with a white-space character. *)
Lemma trim_fixed (s : jsstring) :
  trim s = s
  <-> startsWithWhiteSpace s = false /\ endsWithWhiteSpace s = false.
Proof.
  unfold trim. split.
  - intros H.
    assert (Hs : trimStart s = s).
    { apply trimStart_fixed. destruct s as [|c s]; [reflexivity|].
      cbn. destruct (isWhiteSpace c) eqn:E; [|reflexivity].
      exfalso. pose proof (trimEnd_length (trimStart (c :: s))) as H1.
      rewrite H in H1. cbn in H1. rewrite E in H1.
      pose proof (trimStart_length s). lia. }
    rewrite Hs in H. split; [now apply trimStart_fixed|now apply trimEnd_fixed].
  - intros [H1 H2]. apply trimStart_fixed in H1. rewrite H1.
    now apply trimEnd_fixed.
Qed.

(** ** X1: what the validator accepts *)

(** X1: the validator lets a payload through exactly when username and
    password are both strings that neither start nor end with white
    space, the username has at least one character (and no upper bound)
    and the password between 4 and 72. *)
Theorem validate_accepts_exactly (body : gmap string JsValue) :
  validate body = inr None
  <-> exists s p : jsstring,
        body !! "username" = Some (JStr s)
        /\ body !! "password" = Some (JStr p)
        /\ credential 1 None s /\ credential 4 (Some 72%N) p.
Proof.
  rewrite validate_refines. unfold credential. split.
  - intros H.
    assert (Hv : FieldValidator.firstViolation body = None).
    { destruct (FieldValidator.firstViolation body); [discriminate|easy]. }
    destruct (valid_payload body Hv) as (s & p & Hs & Hp & Ts & Tp & Ls & Lp).
    exists s, p. apply trim_fixed in Ts, Tp.
    repeat split; try tauto; lia.
  - intros (s & p & Hs & Hp & (Ss & Es & Ls & _) & (Sp & Ep & Lp & Up)).
    assert (Ts : trim s = s) by (apply trim_fixed; auto).
    assert (Tp : trim p = p) by (apply trim_fixed; auto).
    unfold FieldValidator.firstViolation, FieldValidator.presence,
      FieldValidator.stringType, FieldValidator.noBoundaryWhitespace,
      FieldValidator.notTooShort, FieldValidator.notTooLong.
    rewrite Hs, Hp, Ts, Tp. cbn.
    repeat case_decide; try lia; try congruence. reflexivity.
Qed.

(** ** X2: fields the registration does not read *)

Lemma firstViolation_insert_other (k : string) (v : JsValue)
  (body : gmap string JsValue) :
  k <> "username" -> k <> "password" ->
  FieldValidator.firstViolation (<[k := v]> body)
  = FieldValidator.firstViolation body.
Proof.
  intros Hu Hp.
  unfold FieldValidator.firstViolation, FieldValidator.presence,
    FieldValidator.stringType, FieldValidator.noBoundaryWhitespace,
    FieldValidator.notTooShort, FieldValidator.notTooLong.
  rewrite !(lookup_insert_ne body k "username") by assumption.
  rewrite !(lookup_insert_ne body k "password") by assumption.
  reflexivity.
Qed.

(** X2: a field of the payload other than username and password changes
    nothing: the validator gives the same verdict, and the registration
    gives the same answer and leaves the same world. *)
Theorem register_ignores_other_fields
  (defaultMetric : bool) (hashPassword : JsValue -> Err + JsValue)
  (faults : Faults) (k : string) (v : JsValue)
  (body : gmap string JsValue) (w : World) :
  k <> "username" -> k <> "password" ->
  validate (<[k := v]> body) = validate body
  /\ Router.register defaultMetric hashPassword faults (<[k := v]> body) w
     = Router.register defaultMetric hashPassword faults body w.
Proof.
  intros Hu Hp.
  assert (Hv : validate (<[k := v]> body) = validate body)
    by (rewrite !validate_refines; now rewrite firstViolation_insert_other).
  split; [exact Hv|].
  unfold Router.register, Router.registerChain. rewrite Hv.
  rewrite !get_lookup.
  rewrite !(lookup_insert_ne body k "username") by assumption.
  rewrite !(lookup_insert_ne body k "password") by assumption.
  reflexivity.
Qed.

(** * Further properties of the registration *)

Section Registration.

Variable idMatches : JsValue -> oid -> bool.
Variable defaultMetric : bool.
Variable hashPassword : JsValue -> Err + JsValue.

Local Abbreviation register := (Router.register defaultMetric hashPassword).

Ltac run :=
  unfold count, create, findById, findByIdAndUpdate,
    record, getUsers, putUsers, freshId, consoleLog;
  unfold mbind, mret, Store_bind, Store_ret;
  cbn beta iota zeta delta [fst snd users nextId calls console].

Lemma count_zero (name : jsstring) (us : list User) :
  (0 <? N.of_nat (length
          (List.filter (fun u => strictEq (username u) (JStr name)) us)))%N
    = false
  <-> Forall (fun u => username u <> JStr name) us.
Proof.
  induction us as [|u us IH]; cbn.
  - split; [constructor|reflexivity].
  - destruct (strictEq (username u) (JStr name)) eqn:E.
    + split.
      * intros H. apply N.ltb_ge in H. cbn in H. lia.
      * intros H. apply Forall_inv in H.
        apply strictEq_str_true in E. contradiction.
    + rewrite IH. split.
      * intros H. constructor; [|assumption].
        intros Hu. apply strictEq_str_true in Hu. congruence.
      * intros H. now apply Forall_inv_tail in H.
Qed.

(** The three ways a registration ends: the validator answers; the chain
    is rejected and the catch handler answers; a user is appended and the
    answer is 201. *)
Lemma register_outcomes (faults : Faults) (body : gmap string JsValue)
  (w : World) :
  (exists x, FieldValidator.firstViolation body = Some x
             /\ register faults body w = (Sent (FieldValidator.report x), w))
  \/ (exists err cs,
        register faults body w
        = (Sent (onRejected err),
           mkWorld (users w) (nextId w) (calls w ++ cs) (console w)))
  \/ (exists s h,
        get body "username" = JStr s
        /\ Forall (fun u => username u <> JStr s) (users w)
        /\ hashPassword (get body "password") = inr h
        /\ register faults body w
           = (Sent (json (JNum 201)
                      (serialize (mkUser (nextId w) (JStr s) h []
                                         (JBool defaultMetric)))),
              mkWorld
                (users w ++ [mkUser (nextId w) (JStr s) h []
                                    (JBool defaultMetric)])
                (N.succ (nextId w))
                (calls w ++ [CallCount (JStr s); CallCreate (JStr s) h])
                (console w))).
Proof.
  unfold Router.register. rewrite validate_refines.
  destruct (FieldValidator.firstViolation body) as [x|] eqn:Hv;
    [left; eauto|right].
  destruct (valid_payload body Hv) as (s & p & Hs & Hp & _).
  assert (Hname : get body "username" = JStr s)
    by (now rewrite get_lookup, Hs).
  cbn [fmap option_fmap option_map].
  unfold Router.registerChain. rewrite Hname. run.
  destruct (countFault faults) as [e|].
  { left. exists e, [CallCount (JStr s)]. reflexivity. }
  destruct (0 <? _)%N eqn:Hc.
  { left. exists usernameTaken, [CallCount (JStr s)]. reflexivity. }
  apply count_zero in Hc.
  destruct (hashPassword (get body "password")) as [e|h] eqn:Hh.
  { left. exists e, [CallCount (JStr s)]. reflexivity. }
  destruct (createFault faults) as [e|].
  { left. exists e, [CallCount (JStr s); CallCreate (JStr s) h].
    cbn. now rewrite <- app_assoc. }
  right. exists s, h. repeat split; try assumption.
  cbn. now rewrite <- app_assoc.
Qed.

(** ** X3: a successful registration *)

(** X3: for a payload the validator accepts, whose username no stored
    user has, when both store calls succeed and the hash resolves, the
    answer is 201 with the serialized new user; the store is asked to
    count, then to create with the username and the hash (never the
    submitted password), and the collection gains exactly that user,
    without locations. *)
Theorem register_creates_user
  (faults : Faults) (body : gmap string JsValue) (w : World)
  (s p : jsstring) (h : JsValue) :
  body !! "username" = Some (JStr s) ->
  body !! "password" = Some (JStr p) ->
  validate body = inr None ->
  countFault faults = None -> createFault faults = None ->
  Forall (fun u => username u <> JStr s) (users w) ->
  hashPassword (JStr p) = inr h ->
  register faults body w
  = (Sent (json (JNum 201)
             (serialize (mkUser (nextId w) (JStr s) h []
                                (JBool defaultMetric)))),
     mkWorld
       (users w ++ [mkUser (nextId w) (JStr s) h [] (JBool defaultMetric)])
       (N.succ (nextId w))
       (calls w ++ [CallCount (JStr s); CallCreate (JStr s) h])
       (console w)).
Proof.
  intros Hs Hp Hv Hc Hk Hfree Hh.
  assert (Gs : get body "username" = JStr s) by now rewrite get_lookup, Hs.
  assert (Gp : get body "password" = JStr p) by now rewrite get_lookup, Hp.
  unfold Router.register, Router.registerChain.
  rewrite Hv, Gs, Gp, Hc, Hk, Hh. run.
  rewrite (proj2 (count_zero s (users w)) Hfree).
  cbn. now rewrite <- app_assoc.
Qed.

(** ** X4: usernames stay unique *)

Lemma Forall2_map_eq {A B : Type} (R : A -> A -> Prop) (f : A -> B)
  (l l' : list A) :
  Forall2 R l l' -> (forall x y, R x y -> f y = f x) -> map f l' = map f l.
Proof.
  intros H HR. induction H as [|x y l l' Hxy _ IH]; cbn; [reflexivity|].
  now rewrite (HR x y Hxy), IH.
Qed.

(** X4: when no two stored users share a username, none do after a
    registration, whatever the payload and whatever fails, nor after Add
    location, Remove location or Set metric preference. *)
Theorem usernames_stay_unique (w : World) :
  usernamesUnique w ->
  (forall faults body, usernamesUnique (snd (register faults body w)))
  /\ (forall fault id body,
        usernamesUnique (snd (Router.newLocation idMatches fault id body w)))
  /\ (forall fault id body,
        usernamesUnique
          (snd (Router.deleteLocation idMatches fault id body w)))
  /\ (forall fault id body,
        usernamesUnique (snd (Router.setMetric idMatches fault id body w))).
Proof.
  unfold usernamesUnique. intros Hw. repeat split.
  - intros faults body.
    destruct (register_outcomes faults body w)
      as [(x & _ & ->)|[(err & cs & ->)|(s & h & _ & Hfree & _ & ->)]];
      cbn [snd users]; try assumption.
    rewrite map_app. apply NoDup_app. repeat split; try assumption.
    + intros x Hx Hx'. cbn in Hx'. apply list_elem_of_singleton in Hx'.
      subst x. apply list_elem_of_In, in_map_iff in Hx as (u & Hu & Hin).
      rewrite List.Forall_forall in Hfree. now apply (Hfree u Hin).
    + cbn. apply NoDup_singleton.
  - intros fault id body.
    destruct (mutators_frame idMatches fault id body w) as (H & _ & _).
    rewrite (Forall2_map_eq _ username _ _ H); [assumption|].
    now intros x y [(_ & Hu & _) _].
  - intros fault id body.
    destruct (mutators_frame idMatches fault id body w) as (_ & H & _).
    rewrite (Forall2_map_eq _ username _ _ H); [assumption|].
    now intros x y [(_ & Hu & _) _].
  - intros fault id body.
    destruct (mutators_frame idMatches fault id body w) as (_ & _ & H).
    rewrite (Forall2_map_eq _ username _ _ H); [assumption|].
    now intros x y [(_ & Hu & _) _].
Qed.

(** ** X5: registering the same username twice *)

(** X5: after a registration that was answered 201, a second registration
    with the same username and any acceptable password, whose count
    query succeeds, is answered 422, Username already taken, and leaves
    the collection as the first one left it. *)
Theorem second_registration_is_rejected
  (faults faults' : Faults) (body body' : gmap string JsValue) (w : World)
  (s p p' : jsstring) (h : JsValue) :
  body !! "username" = Some (JStr s) ->
  body !! "password" = Some (JStr p) ->
  validate body = inr None ->
  countFault faults = None -> createFault faults = None ->
  Forall (fun u => username u <> JStr s) (users w) ->
  hashPassword (JStr p) = inr h ->
  body' !! "username" = Some (JStr s) ->
  validate body' = inr None ->
  countFault faults' = None ->
  let w1 := snd (register faults body w) in
  fst (register faults' body' w1)
    = Sent (validationError (lit "Username already taken") "username")
  /\ users (snd (register faults' body' w1)) = users w1
  /\ length (users w1) = S (length (users w)).
Proof.
  intros Hs Hp Hv Hc Hk Hfree Hh Hs' Hv' Hc' w1. subst w1.
  rewrite (register_creates_user faults body w s p h) by assumption.
  cbn [snd].
  assert (Gs : get body' "username" = JStr s) by now rewrite get_lookup, Hs'.
  unfold Router.register, Router.registerChain. rewrite Hv', Gs, Hc'. run.
  rewrite (count_positive (JStr s) _
             (mkUser (nextId w) (JStr s) h [] (JBool defaultMetric))).
  - repeat split. rewrite length_app. cbn. lia.
  - apply in_or_app. right. left. reflexivity.
  - cbn. now apply bool_decide_eq_true_2.
Qed.

(** ** X6: every registration is answered *)


End Registration.

(** * Further properties of the stored documents *)

(** ** Updating the first match of a list *)

Lemma updateFirst_none {A : Type} (p : A -> bool) (f : A -> A) (l : list A) :
  List.find p l = None -> updateFirst p f l = (None, l).
Proof.
  induction l as [|x l IH]; cbn; [reflexivity|].
  destruct (p x); [discriminate|]. intros H. now rewrite (IH H).
Qed.

Lemma updateFirst_fixed {A : Type} (p : A -> bool) (f : A -> A) (l : list A) :
  Forall (fun x => f x = x) l -> updateFirst p f l = (List.find p l, l).
Proof.
  induction 1 as [|x l Hx _ IH]; cbn; [reflexivity|].
  destruct (p x); [now rewrite Hx|]. now rewrite IH.
Qed.

Lemma updateFirst_undo {A : Type} (p : A -> bool) (f g : A -> A)
  (l : list A) :
  (forall x, p (f x) = p x) -> Forall (fun x => g (f x) = x) l ->
  snd (updateFirst p g (snd (updateFirst p f l))) = l.
Proof.
  intros Hp. induction 1 as [|x l Hx _ IH]; cbn; [reflexivity|].
  destruct (p x) eqn:E; cbn.
  - now rewrite Hp, E, Hx.
  - destruct (updateFirst p f l) as [r l1]. cbn in *. rewrite E.
    destruct (updateFirst p g l1) as [r' l2]. cbn in *. now rewrite IH.
Qed.

Lemma updateFirst_comm {A : Type} (p q : A -> bool) (f g : A -> A)
  (l : list A) :
  (forall x, p (g x) = p x) -> (forall x, q (f x) = q x) ->
  (forall x, f (g x) = g (f x)) ->
  snd (updateFirst p f (snd (updateFirst q g l)))
  = snd (updateFirst q g (snd (updateFirst p f l))).
Proof.
  intros Hp Hq Hfg. induction l as [|x l IH]; cbn; [reflexivity|].
  destruct (p x) eqn:Ep, (q x) eqn:Eq; cbn;
    repeat match goal with
           | |- context [updateFirst ?a ?b l] =>
               destruct (updateFirst a b l) eqn:?; cbn in *
           end;
    rewrite ?Hp, ?Hq, ?Ep, ?Eq; cbn;
    repeat match goal with
           | |- context [updateFirst ?a ?b ?k] =>
               destruct (updateFirst a b k) eqn:?; cbn in *
           end;
    try congruence.
Qed.

Lemma filter_all {A : Type} (q : A -> bool) (l : list A) :
  Forall (fun x => q x = true) l -> List.filter q l = l.
Proof.
  induction 1 as [|x l Hx _ IH]; cbn; [reflexivity|]. now rewrite Hx, IH.
Qed.

Section Documents.

Variable idMatches : JsValue -> oid -> bool.

Local Abbreviation getUser := (Router.getUser idMatches).
Local Abbreviation getLocations := (Router.getLocations idMatches).
Local Abbreviation getMetric := (Router.getMetric idMatches).
Local Abbreviation newLocation := (Router.newLocation idMatches).
Local Abbreviation deleteLocation := (Router.deleteLocation idMatches).
Local Abbreviation setMetric := (Router.setMetric idMatches).
Local Abbreviation updated := (Store.updated idMatches).

(** The user an identifier denotes. *)
Local Abbreviation lookupUser id w :=
  (List.find (fun u => idMatches (JStr id) (user_id u)) (users w)).

Ltac mutated :=
  unfold Router.newLocation, Router.deleteLocation, Router.setMetric;
  rewrite ?bind_run;
  rewrite ?findByIdAndUpdate_fault, ?findByIdAndUpdate_ok;
  cbn [fst snd]; unfold consoleLog, mret, Store_ret;
  rewrite ?bind_run; cbn [fst snd users calls console nextId afterCall].

Ltac reading :=
  unfold Router.getUser, Router.getLocations, Router.getMetric, findById,
    record, getUsers;
  unfold mbind, mret, Store_bind, Store_ret;
  cbn beta iota zeta delta [fst snd users nextId calls console].

(** What an update by identifier returns and what a lookup finds
    afterwards. *)
Lemma updated_found (id : jsstring) (upd : Update) (w : World) (u : User) :
  lookupUser id w = Some u ->
  let i := match upd with Push _ => nextId w | _ => 0%N end in
  fst (updated id upd w) = Some (applyUpdate idMatches i upd u)
  /\ List.find (fun u => idMatches (JStr id) (user_id u))
       (snd (updated id upd w))
     = Some (applyUpdate idMatches i upd u).
Proof.
  intros Hu i. unfold Store.updated.
  destruct (updateFirst_find
              (fun u => idMatches (JStr id) (user_id u))
              (applyUpdate idMatches i upd) (users w)) as [H1 H2].
  { intros x. now rewrite applyUpdate_id. }
  fold i. rewrite H1, H2, Hu. auto.
Qed.

Lemma updated_missing (id : jsstring) (upd : Update) (w : World) :
  lookupUser id w = None -> updated id upd w = (None, users w).
Proof. intros H. unfold Store.updated. now apply updateFirst_none. Qed.

(** ** X7: an identifier that denotes no user *)

(** X7: when no stored user has the identifier and the store answers,
    the three read handlers answer 404 without a body, while the three
    mutators answer 200 without a body; the collection is unchanged in
    all six cases. *)
Theorem unknown_id_is_404_for_reads_and_200_for_mutators
  (id : jsstring) (body : gmap string JsValue) (w : World) :
  lookupUser id w = None ->
  (getUser None id w
     = (Sent (mkResponse (JNum 404) None), afterCall (CallFindById id) w)
   /\ getLocations None id w
     = (Sent (mkResponse (JNum 404) None), afterCall (CallFindById id) w)
   /\ getMetric None id w
     = (Sent (mkResponse (JNum 404) None), afterCall (CallFindById id) w))
  /\ (fst (newLocation None id body w) = Sent (mkResponse (JNum 200) None)
      /\ users (snd (newLocation None id body w)) = users w)
  /\ (fst (deleteLocation None id body w) = Sent (mkResponse (JNum 200) None)
      /\ users (snd (deleteLocation None id body w)) = users w)
  /\ (fst (setMetric None id body w) = Sent (mkResponse (JNum 200) None)
      /\ users (snd (setMetric None id body w)) = users w).
Proof.
  intros H. split.
  - repeat split; reading; now rewrite H.
  - repeat split; mutated; now rewrite updated_missing.
Qed.

(** ** X8: listing after adding or removing *)

(** X8: for a stored user, List locations right after a successful Add
    location returns the former entries followed by the new one, which
    has the submitted name; right after a successful Remove location it
    returns the former entries that the locationId does not denote, in
    their order. *)
Theorem list_locations_reads_the_update
  (id : jsstring) (body : gmap string JsValue) (w : World) (u : User) :
  lookupUser id w = Some u ->
  fst (getLocations None id (snd (newLocation None id body w)))
    = Sent (json (JNum 200)
         (JArr (map locationJSON
                  (locations u
                     ++ [mkLocation (nextId w) (get body "name")]))))
  /\ fst (getLocations None id (snd (deleteLocation None id body w)))
     = Sent (json (JNum 200)
          (JArr (map locationJSON
                   (List.filter
                      (fun l => negb (idMatches (get body "locationId")
                                                (loc_id l)))
                      (locations u))))).
Proof.
  intros Hu. split; mutated; reading.
  - destruct (updated_found id (Push (get body "name")) w u Hu) as [_ ->].
    reflexivity.
  - destruct (updated_found id (Pull (get body "locationId")) w u Hu)
      as [_ ->].
    reflexivity.
Qed.

(** ** X9: reading the metric after setting it *)


(** ** X10: adding a location and removing it again *)

Lemma pull_after_push (i : oid) (name locationId : JsValue) (u : User) :
  idMatches locationId i = true ->
  Forall (fun l => idMatches locationId (loc_id l) = false) (locations u) ->
  applyUpdate idMatches 0%N (Pull locationId)
    (applyUpdate idMatches i (Push name) u) = u.
Proof.
  intros Hi Hu. destruct u as [uid name0 pw locs m]. cbn in *. f_equal.
  rewrite List.filter_app. cbn. rewrite Hi. cbn.
  rewrite filter_all; [apply app_nil_r|].
  eapply Forall_impl; [exact Hu|]. cbn. now intros l ->.
Qed.

(** X10: when the locationId denotes the identifier the next pushed entry
    receives and no stored entry, a successful Add location followed by
    a successful Remove location with that locationId gives back the
    collection as it was, whether or not the user exists. *)
Theorem remove_undoes_add
  (id : jsstring) (body body' : gmap string JsValue) (w : World) :
  idMatches (get body' "locationId") (nextId w) = true ->
  denotesNoEntry idMatches (get body' "locationId") w ->
  users (snd (deleteLocation None id body'
                (snd (newLocation None id body w))))
  = users w.
Proof.
  intros Hnew Hold. mutated. unfold Store.updated.
  cbn [users nextId].
  apply updateFirst_undo.
  - intros x. now rewrite applyUpdate_id.
  - eapply Forall_impl; [exact Hold|]. cbn.
    intros u Hu. now apply pull_after_push.
Qed.

(** ** X11: what the mutators answer *)

Lemma applyUpdate_password (i : oid) (upd : Update) (u : User) :
  password (applyUpdate idMatches i upd u) = password u.
Proof. destruct upd; reflexivity. Qed.

Lemma mutator_answer (id : jsstring) (upd : Update) (w : World) (u : User) :
  lookupUser id w = Some u ->
  let u' := applyUpdate idMatches
              (match upd with Push _ => nextId w | _ => 0%N end) upd u in
  send (docOrNull (fst (updated id upd w))) = json (JNum 200) (toJSON u')
  /\ fst (getUser None id
            (mkWorld (snd (updated id upd w))
               (match upd with Push _ => N.succ (nextId w) | _ => nextId w end)
               (calls w ++ [CallFindByIdAndUpdate id upd]) (console w)))
     = Sent (json (JNum 200) (toJSON u'))
  /\ bodyProperty "password" (json (JNum 200) (toJSON u'))
     = defined (password u).
Proof.
  intros Hu u'. destruct (updated_found id upd w u Hu) as [H1 H2].
  repeat split.
  - rewrite H1. reflexivity.
  - reading. rewrite H2. reflexivity.
  - rewrite toJSON_password. unfold u'. now rewrite applyUpdate_password.
Qed.

(** X11: for a stored user and a store call that succeeds, each of Add
    location, Remove location and Set metric preference answers with
    exactly what Get user answers right afterwards: status 200 and the
    whole stored document, whose password property is the stored hash. *)
Theorem mutators_answer_with_the_stored_document
  (id : jsstring) (body : gmap string JsValue) (w : World) (u : User) :
  lookupUser id w = Some u ->
  (fst (newLocation None id body w)
     = fst (getUser None id (snd (newLocation None id body w)))
   /\ fst (deleteLocation None id body w)
     = fst (getUser None id (snd (deleteLocation None id body w)))
   /\ fst (setMetric None id body w)
     = fst (getUser None id (snd (setMetric None id body w))))
  /\ (forall r,
        fst (newLocation None id body w) = Sent r
        \/ fst (deleteLocation None id body w) = Sent r
        \/ fst (setMetric None id body w) = Sent r ->
        status r = JNum 200
        /\ bodyProperty "password" r = defined (password u)).
Proof.
  intros Hu.
  destruct (mutator_answer id (Push (get body "name")) w u Hu)
    as (A1 & A2 & A3).
  destruct (mutator_answer id (Pull (get body "locationId")) w u Hu)
    as (B1 & B2 & B3).
  destruct (mutator_answer id (SetMetric (get body "metric")) w u Hu)
    as (C1 & C2 & C3).
  cbv zeta in *. split.
  - repeat split; mutated.
    + now rewrite A1, A2.
    + now rewrite B1, B2.
    + now rewrite C1, C2.
  - intros r. mutated. rewrite A1, B1, C1.
    intros [[= <-]|[[= <-]|[= <-]]]; split; auto.
Qed.

(** ** X12: updates of different fields commute *)

(** X12: Set metric preference commutes with Add location and with
    Remove location, for the same user or for different ones: when the
    store calls succeed, both orders leave the same collection and the
    same identifier supply. *)
Theorem set_metric_commutes_with_location_updates
  (id1 id2 : jsstring) (body1 body2 : gmap string JsValue) (w : World) :
  let after (f g : World -> Outcome * World) := snd (g (snd (f w))) in
  (users (after (newLocation None id1 body1) (setMetric None id2 body2))
     = users (after (setMetric None id2 body2) (newLocation None id1 body1))
   /\ nextId (after (newLocation None id1 body1) (setMetric None id2 body2))
     = nextId (after (setMetric None id2 body2)
                     (newLocation None id1 body1)))
  /\ (users (after (deleteLocation None id1 body1) (setMetric None id2 body2))
     = users (after (setMetric None id2 body2)
                    (deleteLocation None id1 body1))
     /\ nextId (after (deleteLocation None id1 body1)
                      (setMetric None id2 body2))
       = nextId (after (setMetric None id2 body2)
                       (deleteLocation None id1 body1))).
Proof.
  cbv zeta. repeat split; mutated; try reflexivity;
    unfold Store.updated; cbn [users nextId];
    apply updateFirst_comm; intros x;
    try (now rewrite applyUpdate_id); reflexivity.
Qed.

(** ** X13: removing an entry that is not there *)

(** X13: when the locationId denotes no stored entry, Remove location
    leaves the collection as it is, and when the store call succeeds it
    answers as for a removal, with the unchanged document of the user or
    an empty body when there is no such user. *)
Theorem remove_of_absent_entry_changes_nothing
  (fault : option Err) (id : jsstring) (body : gmap string JsValue)
  (w : World) :
  denotesNoEntry idMatches (get body "locationId") w ->
  users (snd (deleteLocation fault id body w)) = users w
  /\ fst (deleteLocation None id body w)
     = Sent (send (docOrNull (lookupUser id w))).
Proof.
  intros Hno.
  assert (Hfix : updated id (Pull (get body "locationId")) w
                 = (lookupUser id w, users w)).
  { unfold Store.updated. apply updateFirst_fixed.
    eapply Forall_impl; [exact Hno|]. cbn.
    intros [uid name pw locs m] Hu. cbn in *. f_equal.
    apply filter_all. eapply Forall_impl; [exact Hu|]. cbn. now intros l ->. }
  split.
  - destruct fault; mutated; [reflexivity|]. now rewrite Hfix.
  - mutated. now rewrite Hfix.
Qed.

End Documents.

(** * Properties of the application module *)

(** ** X14: the guarded endpoint *)

(** X14: once the authentication middleware lets a request through, the
    guarded endpoint answers exactly as the users router's List
    locations does, and leaves the same world, whether the store answers
    or fails (then no response is sent: its catch handler calls a next
    that is not in scope either); when the middleware ends the request,
    the store is not touched. *)
Theorem protected_endpoint_is_list_locations
  (idMatches : JsValue -> oid -> bool)
  (fault : option Err) (id : jsstring) (w : World) :
  Server.protectedLocations idMatches None fault id w
    = Router.getLocations idMatches fault id w
  /\ (forall err : Err,
        Server.protectedLocations idMatches None (Some err) id w
        = (Threw (ReferenceError "next is not defined"),
           afterCall (CallFindById id) w))
  /\ (forall refusal : Response,
        Server.protectedLocations idMatches (Some refusal) fault id w
        = (Sent refusal, w)).
Proof.
  split; [|split].
  - unfold Server.protectedLocations, Router.getLocations, callNext.
    rewrite !bind_run. destruct (fst (findById _ _ _ _)) as [e|[u|]];
      reflexivity.
  - reflexivity.
  - reflexivity.
Qed.

(** ** X15: starting the server *)

(** X15: runServer resolves exactly when both the database connection
    and the listening attempt succeed.  It always starts with the
    connection attempt; it attempts to listen only after the connection
    succeeded, and then the server variable is assigned, even if
    listening fails; when listening fails its last act is to disconnect
    the database; when the connection fails it does nothing more and
    the server variable is as before. *)
Theorem runServer_outcome
  (PORT : jsstring) (connectError listenError : option Err)
  (p : Server.Process) :
  let r := fst (Server.runServer PORT connectError listenError p) in
  let p' := snd (Server.runServer PORT connectError listenError p) in
  (r = Server.Resolved <-> connectError = None /\ listenError = None)
  /\ (exists es,
        Server.effects p'
          = Server.effects p ++ Server.MongooseConnect :: es
        /\ match connectError, listenError with
           | Some _, _ => es = [] /\ Server.server p' = Server.server p
           | None, Some _ =>
               es = [Server.AppListen; Server.MongooseDisconnect]
               /\ Server.server p' = Some Server.httpServer
           | None, None =>
               es = [Server.AppListen;
                     Server.Log
                       (lit "Your app is listening on port " ++ PORT)]
               /\ Server.server p' = Some Server.httpServer
           end)
  /\ (forall err, connectError = Some err \/
                  (connectError = None /\ listenError = Some err) ->
                  r = Server.RejectedWith err).
Proof.
  cbv zeta. unfold Server.runServer, Server.emit.
  destruct connectError as [e|], listenError as [e'|]; cbn.
  all: repeat split; try discriminate; try tauto.
  all: try (intros [? ?]; discriminate).
  all: try (eexists; split; [rewrite <- ?app_assoc; reflexivity|]; auto).
  all: intros err [H|[H1 H2]]; congruence.
Qed.

(** ** X16: stopping the server *)

(** X16: closeServer first disconnects the database; if that fails it
    rejects and never closes the server.  In a process where runServer
    never got to listen, it then logs and is rejected with a TypeError,
    the server variable being undefined.  After a runServer whose
    connection succeeded, even one whose listening failed, it goes on
    to close the server and settles as the close callback says. *)
Theorem closeServer_outcome
  (PORT : jsstring) (listenError closeError : option Err)
  (p : Server.Process) :
  (forall err,
     Server.closeServer (Some err) closeError p
     = (Server.RejectedWith err, Server.emit Server.MongooseDisconnect p))
  /\ (Server.server p = None ->
      Server.closeServer None closeError p
      = (Server.RejectedThrown
           (TypeError "Cannot read property 'close' of undefined"),
         Server.mkProcess None
           (Server.effects p
              ++ [Server.MongooseDisconnect;
                  Server.Log (lit "Closing server")])))
  /\ (let p1 := snd (Server.runServer PORT None listenError p) in
      Server.closeServer None closeError p1
      = (match closeError with
         | None => Server.Resolved
         | Some err => Server.RejectedWith err
         end,
         Server.mkProcess (Some Server.httpServer)
           (Server.effects p1
              ++ [Server.MongooseDisconnect;
                  Server.Log (lit "Closing server");
                  Server.ServerClose]))).
Proof.
  repeat split.
  - intros Hs. unfold Server.closeServer, Server.emit. cbn. rewrite Hs.
    now rewrite <- app_assoc.
  - cbv zeta. unfold Server.closeServer, Server.runServer, Server.emit.
    destruct listenError, closeError; cbn;
      now rewrite <- ?app_assoc.
Qed.

(** * Concrete instances of the further properties *)

Lemma register_ignores_other_fields_witness :
  Router.register true Sample.reverseHash noFaults Sample2.bobWithEmail
    Sample.emptyWorld
  = Router.register true Sample.reverseHash noFaults Sample.bobPayload
      Sample.emptyWorld.
Proof.
  refine (proj2 (register_ignores_other_fields true Sample.reverseHash
                   noFaults "email" (JStr (lit "bob@example.org"))
                   Sample.bobPayload Sample.emptyWorld _ _));
    discriminate.
Defined.

Lemma register_creates_user_witness :
  Router.register true Sample.reverseHash noFaults Sample.bobPayload
    Sample.emptyWorld
  = (Sent (json (JNum 201) (serialize Sample.bob)), Sample.bobWorld).
Proof.
  refine (register_creates_user true Sample.reverseHash noFaults
            Sample.bobPayload Sample.emptyWorld (lit "bob") (lit "secret1")
            (JStr (lit "$2a$10$1terces")) _ _ _ _ _ _ _).
  - reflexivity.
  - reflexivity.
  - vm_compute. reflexivity.
  - reflexivity.
  - reflexivity.
  - constructor.
  - vm_compute. reflexivity.
Defined.

Lemma sample_usernames_unique : usernamesUnique Sample.aliceWorld.
Proof.
  unfold usernamesUnique. cbn. apply NoDup_cons. split.
  - intros H. apply list_elem_of_singleton in H. discriminate H.
  - apply NoDup_singleton.
Defined.

Lemma usernames_stay_unique_witness :
  usernamesUnique
    (snd (Router.register true Sample.reverseHash noFaults Sample.aliceAgain
            Sample.aliceWorld)).
Proof.
  exact (proj1 (usernames_stay_unique Sample.decimalIdMatches true
                  Sample.reverseHash Sample.aliceWorld
                  sample_usernames_unique)
               noFaults Sample.aliceAgain).
Defined.

Lemma second_registration_is_rejected_witness :
  fst (Router.register true Sample.reverseHash noFaults
         Sample2.bobOtherPassword
         (snd (Router.register true Sample.reverseHash noFaults
                 Sample.bobPayload Sample.emptyWorld)))
  = Sent (validationError (lit "Username already taken") "username").
Proof.
  refine (proj1 (second_registration_is_rejected true Sample.reverseHash
                   noFaults noFaults Sample.bobPayload
                   Sample2.bobOtherPassword Sample.emptyWorld
                   (lit "bob") (lit "secret1") (lit "another1")
                   (JStr (lit "$2a$10$1terces")) _ _ _ _ _ _ _ _ _ _)).
  - reflexivity.
  - reflexivity.
  - vm_compute. reflexivity.
  - reflexivity.
  - reflexivity.
  - constructor.
  - vm_compute. reflexivity.
  - reflexivity.
  - vm_compute. reflexivity.
  - reflexivity.
Defined.

Lemma unknown_id_is_404_for_reads_and_200_for_mutators_witness :
  Router.getUser Sample.decimalIdMatches None (lit "9") Sample.aliceWorld
  = (Sent (mkResponse (JNum 404) None),
     afterCall (CallFindById (lit "9")) Sample.aliceWorld).
Proof.
  refine (proj1 (proj1 (unknown_id_is_404_for_reads_and_200_for_mutators
                   Sample.decimalIdMatches (lit "9") ∅ Sample.aliceWorld _))).
  vm_compute. reflexivity.
Defined.

Lemma list_locations_reads_the_update_witness :
  fst (Router.getLocations Sample.decimalIdMatches None (lit "0")
         (snd (Router.newLocation Sample.decimalIdMatches None (lit "0")
                 Sample2.rome Sample.aliceWorld)))
  = Sent (json (JNum 200)
       (JArr (map locationJSON
                [mkLocation 1%N (JStr (lit "Paris"));
                 mkLocation 3%N (JStr (lit "Rome"))]))).
Proof.
  refine (proj1 (list_locations_reads_the_update Sample.decimalIdMatches
                   (lit "0") Sample2.rome Sample.aliceWorld Sample.alice _)).
  vm_compute. reflexivity.
Defined.


Lemma sample_denotes_no_entry (locationId : jsstring) :
  Sample.decimalIdMatches (JStr locationId) 1%N = false ->
  denotesNoEntry Sample.decimalIdMatches (JStr locationId) Sample.aliceWorld.
Proof.
  intros H. unfold denotesNoEntry. cbn.
  repeat constructor. exact H.
Defined.

Lemma remove_undoes_add_witness :
  users (snd (Router.deleteLocation Sample.decimalIdMatches None (lit "0")
                Sample2.nextEntry
                (snd (Router.newLocation Sample.decimalIdMatches None
                        (lit "0") Sample2.rome Sample.aliceWorld))))
  = users Sample.aliceWorld.
Proof.
  refine (remove_undoes_add Sample.decimalIdMatches (lit "0") Sample2.rome
            Sample2.nextEntry Sample.aliceWorld _ _).
  - vm_compute. reflexivity.
  - apply (sample_denotes_no_entry (lit "3")). vm_compute. reflexivity.
Defined.

Lemma mutators_answer_with_the_stored_document_witness :
  fst (Router.newLocation Sample.decimalIdMatches None (lit "0")
         Sample2.rome Sample.aliceWorld)
  = fst (Router.getUser Sample.decimalIdMatches None (lit "0")
           (snd (Router.newLocation Sample.decimalIdMatches None (lit "0")
                   Sample2.rome Sample.aliceWorld))).
Proof.
  refine (proj1 (proj1 (mutators_answer_with_the_stored_document
                   Sample.decimalIdMatches (lit "0") Sample2.rome
                   Sample.aliceWorld Sample.alice _))).
  vm_compute. reflexivity.
Defined.

Lemma remove_of_absent_entry_changes_nothing_witness :
  users (snd (Router.deleteLocation Sample.decimalIdMatches None (lit "0")
                Sample2.noEntry Sample.aliceWorld))
  = users Sample.aliceWorld.
Proof.
  refine (proj1 (remove_of_absent_entry_changes_nothing
                   Sample.decimalIdMatches None (lit "0") Sample2.noEntry
                   Sample.aliceWorld _)).
  apply (sample_denotes_no_entry (lit "7")). vm_compute. reflexivity.
Defined.

Lemma closeServer_outcome_witness :
  Server.closeServer None None Sample2.freshProcess
  = (Server.RejectedThrown
       (TypeError "Cannot read property 'close' of undefined"),
     Server.mkProcess None
       [Server.MongooseDisconnect; Server.Log (lit "Closing server")]).
Proof.
  refine (proj1 (proj2 (closeServer_outcome Sample2.port None None
                          Sample2.freshProcess)) _).
  reflexivity.
Defined.
